(** * MyRentalHost Concierge: a shallow embedding of the backend

    The development follows [app.py] and [whatsapp_integration.py]:
    Python strings are [string] (UTF-8 bytes), the two storage folders
    are finite maps from entry names to their contents, and every view
    function is a computation in a small state-and-exception monad whose
    state is the file store, the clock and a log of the effects performed.

    Modelling boundary.  The folders are flat: an apartment id names one
    directory of [apartments_data], a file path of [chat_history] names
    one entry, and two paths denote the same entry exactly when they are
    the same string.  This is what the file system does when the id is
    one entry name ([is_entry_name]: not empty, [.] or [..], no [/], no
    NUL, at most [NAME_MAX] bytes), as the ids taken from a segment of
    the URL are.  The ids of a [/chat] request come from its JSON body
    and can be any string.  For one that is not an entry name the file
    system resolves the joined path instead: [open] of
    [chat_history/a/b_info.json] raises [FileNotFoundError] (a NUL gives
    [ValueError], an over-long name [OSError]), [chat_history/./ana.json]
    is the file of guest [ana], [chat_history/../apartments_data/apt-1/x.json]
    lies in an apartment folder, [apartments_data/.] is the folder
    itself, and [os.listdir] of [apartments_data/apt-1/wifi.pdf] raises
    [NotADirectoryError].  None of this is in the store model, so a
    statement about [chat] that depends on where its files lie is made
    for ids that are entry names ([guest_id_names_files],
    [is_entry_name]).  File-system failures (permissions, full disk) and
    request bodies that are not JSON objects of strings are outside the
    model as well. *)

From Stdlib Require Import Ascii String.
From stdpp Require Import base option list gmap strings.

Local Open Scope stdpp_scope.

(** ** Python string primitives used by the source *)

Module PyStr.

(** [c in s] for a one-character needle. *)
Fixpoint contains_char (c : ascii) (s : string) : bool :=
  match s with
  | EmptyString => false
  | String d s' => if decide (c = d) then true else contains_char c s'
  end.

(** [s.rsplit(c, 1)]: one split at the last occurrence of [c];
    the whole string alone when [c] does not occur. *)
Fixpoint rsplit1 (c : ascii) (s : string) : list string :=
  match s with
  | EmptyString => [EmptyString]
  | String d s' =>
      match rsplit1 c s' with
      | [hd; tl] => [String d hd; tl]
      | _ => if decide (c = d) then [EmptyString; s'] else [String d s']
      end
  end.

(** [str.lower()] on the ASCII range; bytes of non-ASCII characters are
    kept.  (No non-ASCII character lower-cases to a letter of [pdf],
    [docx] or [doc], so the extension test is not affected.) *)
Definition lower_ascii (c : ascii) : ascii :=
  let n := nat_of_ascii c in
  if (65 <=? n)%nat && (n <=? 90)%nat then ascii_of_nat (n + 32) else c.

Fixpoint lower (s : string) : string :=
  match s with
  | EmptyString => EmptyString
  | String c s' => String (lower_ascii c) (lower s')
  end.

Fixpoint drop (n : nat) (s : string) : string :=
  match n, s with
  | O, _ => s
  | S n', String _ s' => drop n' s'
  | S _, EmptyString => EmptyString
  end.

(** [s.endswith(suffix)]. *)
Definition endswith (s suffix : string) : bool :=
  bool_decide (String.length suffix ≤ String.length s)
  && bool_decide (drop (String.length s - String.length suffix) s = suffix).

(** Truthiness of a value that is [None] or a string:
    [None] and [''] are falsy. *)
Definition truthy (v : option string) : bool :=
  match v with
  | Some (String _ _) => true
  | _ => false
  end.

End PyStr.

(** ** Configuration ([app.py], lines 21-22) *)

Definition ALLOWED_EXTENSIONS : list string := ["pdf"; "docx"; "doc"].

(** [allowed_file] ([app.py], lines 33-35). *)
Definition allowed_file (filename : string) : bool :=
  PyStr.contains_char "." filename
  && bool_decide (PyStr.lower (nth 1 (PyStr.rsplit1 "." filename) "") ∈ ALLOWED_EXTENSIONS).

(** ** Persisted records *)

(** One entry of a chat history: the dict with keys ['role'], ['content']
    and ['timestamp'] built in [chat]. *)
Record ChatMessage := {
  msg_role : string;
  msg_content : string;
  msg_timestamp : string
}.

(** The dict written by [save_guest_info]. *)
Record GuestInfo := {
  info_guest_id : string;
  info_apartment_id : string;
  info_created_at : string
}.

(** What [json.load] can return from a file of the [chat_history] folder:
    the folder holds both kinds of file, told apart by name only. *)
Inductive JsonDoc :=
| HistoryDoc (history : list ChatMessage)
| InfoDoc (info : GuestInfo).

(** Effects recorded for ordering statements (instrumentation: the source
    keeps no such log). *)
Inductive Event :=
| EvSaveGuestInfo (guest_id apartment_id : string)
| EvResponder (system : string) (messages : list (string * string))
    (reply : option string)
| EvSaveChatHistory (guest_id : string).

(** A directory of [apartments_data]: its files, in [os.listdir] order,
    each with its raw bytes. *)
Abbreviation Directory := (list (string * string)).

Record World := {
  apartments_data : gmap string Directory;
  chat_history : gmap string JsonDoc;
  clock : nat;
  effects : list Event
}.

Definition with_apartments_data (f : gmap string Directory → gmap string Directory)
    (w : World) : World :=
  {| apartments_data := f (apartments_data w); chat_history := chat_history w;
     clock := clock w; effects := effects w |}.

Definition with_chat_history (f : gmap string JsonDoc → gmap string JsonDoc)
    (w : World) : World :=
  {| apartments_data := apartments_data w; chat_history := f (chat_history w);
     clock := clock w; effects := effects w |}.

Definition with_clock (f : nat → nat) (w : World) : World :=
  {| apartments_data := apartments_data w; chat_history := chat_history w;
     clock := f (clock w); effects := effects w |}.

Definition with_effects (f : list Event → list Event) (w : World) : World :=
  {| apartments_data := apartments_data w; chat_history := chat_history w;
     clock := clock w; effects := f (effects w) |}.

(** ** Exceptions and the computation monad *)

Inductive PyExn :=
| NameError (name : string)
| TypeError
| AttributeError
| IsADirectoryError
| ResponderError.

Inductive Result (A : Type) :=
| Ok (a : A)
| Raise (e : PyExn).
Arguments Ok {A} a.
Arguments Raise {A} e.

Definition M (S A : Type) : Type := S → Result A * S.

Global Instance M_ret {S} : MRet (M S) := λ A a s, (Ok a, s).

Global Instance M_bind {S} : MBind (M S) := λ A B k m s,
  match m s with
  | (Ok a, s') => k a s'
  | (Raise e, s') => (Raise e, s')
  end.

Definition raise {S A} (e : PyExn) : M S A := λ s, (Raise e, s).
Definition get {S} : M S S := λ s, (Ok s, s).
Definition modify {S} (f : S → S) : M S unit := λ s, (Ok tt, f s).

(** [try: body  except Exception: handler]; what [body] wrote before
    raising stays written. *)
Definition try_except {S A} (body : M S A) (handler : PyExn → M S A) : M S A :=
  λ s, match body s with
       | (Ok a, s') => (Ok a, s')
       | (Raise e, s') => handler e s'
       end.

(** ** External collaborators *)

Record Externals := {
  (** the text [datetime.now().isoformat()] gives at the n-th reading *)
  isoformat_at : nat → string;
  (** the extractors, as functions of the file's bytes; they catch their
      own exceptions and always return a string *)
  extract_text_from_pdf : string → string;
  extract_text_from_docx : string → string;
  (** the hosted model: client construction, [messages.create] and
      [response.content[0].text]; [None] when any of them raises *)
  responder : string → list (string * string) → option string;
  (** [werkzeug.utils.secure_filename] *)
  secure_filename : string → string;
  (** [os.environ.get('WHATSAPP_VERIFY_TOKEN')] *)
  env_WHATSAPP_VERIFY_TOKEN : option string
}.

(** A JSON response with its status; [jsonify(...)] alone is status 200. *)
Inductive Body :=
| JError (error : string)
| JChat (response apartment_id guest_id : string)
| JHistory (guest_id : string) (apartment_id : option string) (history : JsonDoc)
| JReset (message guest_id : string)
| JDocuments (apartment_id : string) (documents : list string)
| JUpload (message apartment_id filename : string).

Definition Response : Type := Body * nat.

(** The loader's result: the dict with keys ['apartment_id'],
    ['documents'] and ['full_text']. *)
Record ApartmentInfo := {
  apt_apartment_id : string;
  apt_documents : list (string * string);
  apt_full_text : string
}.

(** The JSON body of a [/chat] request: each key absent ([None]) or a string. *)
Record ChatRequest := {
  req_guest_id : option string;
  req_apartment_id : option string;
  req_message : option string
}.

(** [request.files] of an upload: the ['file'] part, if any. *)
Record FileStorage := {
  file_filename : string;
  file_data : string
}.

(** ** The backend ([app.py]) *)

Definition LF : ascii := ascii_of_nat 10.

(** The two f-strings of lines 118 and 132: the path of a guest's history
    file and of a guest's link file.  The store below is keyed by these
    strings; the key is the file the path denotes when
    [guest_id +:+ ".json"] and [guest_id +:+ "_info.json"] are entry
    names of the folder. *)
Definition history_file (guest_id : string) : string :=
  "chat_history/" +:+ guest_id +:+ ".json".

Definition guest_file (guest_id : string) : string :=
  "chat_history/" +:+ guest_id +:+ "_info.json".

(** The delimiter put before each document's text (line 88):
    [f"\n\n=== {filename} ===\n"]. *)
Definition section_marker (filename : string) : string :=
  String LF (String LF ("=== " +:+ filename +:+ " ===" +:+ String LF "")).

(** [get_concierge_system_prompt] ([app.py], lines 92-114): the f-string,
    cut at its two placeholders. *)
Definition get_concierge_system_prompt (apartment_info : ApartmentInfo) : string :=
  "Eres el conciergue virtual de MyRentalHost para el apartamento "
  +:+ apt_apartment_id apartment_info +:+
  " en Barcelona.

Tu función es ayudar a los huéspedes con cualquier duda o necesidad durante su estancia. Debes ser:
- Amable, profesional y servicial
- Claro y conciso en tus respuestas
- Proactivo en ofrecer información relevante
- Capaz de manejar emergencias con calma

INFORMACIÓN DEL APARTAMENTO:
"
  +:+ apt_full_text apartment_info +:+
  "

INSTRUCCIONES IMPORTANTES:
1. Responde SIEMPRE en español de forma natural y conversacional
2. Si el huésped pregunta algo que está en la documentación, proporciona la respuesta exacta
3. Para recomendaciones de Barcelona, usa tu conocimiento general de la ciudad
4. Si hay una emergencia, proporciona los contactos de emergencia del apartamento
5. Si no tienes información específica, sé honesto y ofrece contactar con el equipo de MyRentalHost
6. Mantén un tono cálido pero profesional, como un conciergue de hotel de lujo
7. Personaliza tus respuestas según el contexto de la conversación

Recuerda: Tu objetivo es hacer que la estancia del huésped sea lo más cómoda y agradable posible.".

(** Truthiness of what [load_guest_info] returns: [None] and the empty
    list are falsy, a dict with keys is truthy. *)
Definition doc_truthy (v : option JsonDoc) : bool :=
  match v with
  | None => false
  | Some (HistoryDoc []) => false
  | Some (HistoryDoc (_ :: _)) => true
  | Some (InfoDoc _) => true
  end.

(** [file.save(filepath)] into a directory: an existing file of that name
    is overwritten in place, a new one is listed last. *)
Fixpoint write_file (filename data : string) (d : Directory) : Directory :=
  match d with
  | [] => [(filename, data)]
  | (f, x) :: d' =>
      if decide (f = filename) then (f, data) :: d'
      else (f, x) :: write_file filename data d'
  end.

(** What a view of [whatsapp_webhook] hands back: [return challenge], or
    a body with a status. *)
Inductive ViewReturn :=
| Plain (value : option string)
| WithStatus (body : string) (status : nat).

Section App.
Context (ext : Externals).

(** [datetime.now().isoformat()]. *)
Definition datetime_now_isoformat : M World string :=
  w ← get;
  modify (with_clock S);;
  mret (isoformat_at ext (clock w)).

(** One turn of the loop of [load_apartment_info] (lines 74-88). *)
Definition load_document (apartment_info : ApartmentInfo) (entry : string * string)
    : ApartmentInfo :=
  let '(filename, data) := entry in
  let add text :=
    {| apt_apartment_id := apt_apartment_id apartment_info;
       apt_documents := apt_documents apartment_info ++ [(filename, text)];
       apt_full_text :=
         apt_full_text apartment_info +:+ section_marker filename +:+ text |} in
  if PyStr.endswith filename ".pdf" then
    add (extract_text_from_pdf ext data)
  else if PyStr.endswith filename ".docx" || PyStr.endswith filename ".doc" then
    add (extract_text_from_docx ext data)
  else
    apartment_info.

(** [load_apartment_info] (lines 60-90).  [os.path.exists] and
    [os.listdir] of the joined path are the lookup of the apartment's
    directory, which is what they do for an apartment id that is an entry
    name of [apartments_data]. *)
Definition load_apartment_info (apartment_id : string) : M World (option ApartmentInfo) :=
  w ← get;
  mret (match apartments_data w !! apartment_id with
        | None => None
        | Some listing =>
            Some (foldl load_document
                    {| apt_apartment_id := apartment_id;
                       apt_documents := [];
                       apt_full_text := "" |}
                    listing)
        end).

(** [get_chat_history] (lines 116-122). *)
Definition get_chat_history (guest_id : string) : M World JsonDoc :=
  w ← get;
  mret (match chat_history w !! history_file guest_id with
        | Some doc => doc
        | None => HistoryDoc []
        end).

(** [save_chat_history] (lines 124-128). *)
Definition save_chat_history (guest_id : string) (history : list ChatMessage)
    : M World unit :=
  modify (with_chat_history (insert (history_file guest_id) (HistoryDoc history)));;
  modify (with_effects (λ l, l ++ [EvSaveChatHistory guest_id])).

(** [save_guest_info] (lines 130-139).  [open(guest_file, 'w')] followed
    by [json.dump] is the insertion of the record at the path, which is
    what they do when the link file is an entry name of [chat_history];
    for other guest ids [open] can raise or write elsewhere. *)
Definition save_guest_info (guest_id apartment_id : string) : M World unit :=
  created_at ← datetime_now_isoformat;
  let info := {| info_guest_id := guest_id;
                 info_apartment_id := apartment_id;
                 info_created_at := created_at |} in
  modify (with_chat_history (insert (guest_file guest_id) (InfoDoc info)));;
  modify (with_effects (λ l, l ++ [EvSaveGuestInfo guest_id apartment_id])).

(** [load_guest_info] (lines 141-147). *)
Definition load_guest_info (guest_id : string) : M World (option JsonDoc) :=
  w ← get;
  mret (chat_history w !! guest_file guest_id).

(** [guest_info['apartment_id']]: a list does not take a string index. *)
Definition subscript_apartment_id (guest_info : option JsonDoc) : M World string :=
  match guest_info with
  | Some (InfoDoc info) => mret (info_apartment_id info)
  | _ => raise TypeError
  end.

(** [chat_history.append({...})]: the attribute is looked up before the
    argument is evaluated, and a dict has no [append]. *)
Definition py_append (chat_history : JsonDoc) (entry : M World ChatMessage)
    : M World (list ChatMessage) :=
  match chat_history with
  | HistoryDoc history => e ← entry; mret (history ++ [e])
  | InfoDoc _ => raise AttributeError
  end.

Definition new_message (role content : string) : M World ChatMessage :=
  timestamp ← datetime_now_isoformat;
  mret {| msg_role := role; msg_content := content; msg_timestamp := timestamp |}.

(** The list comprehension of lines 276-280. *)
Definition api_messages_of (chat_history : list ChatMessage) : list (string * string) :=
  (λ msg, (msg_role msg, msg_content msg))
    <$> filter (λ msg, msg_role msg ∈ ["user"; "assistant"]) chat_history.

(** Lines 273 and 282-289: the one call to the hosted model. *)
Definition call_responder (system : string) (messages : list (string * string))
    : M World string :=
  let reply := responder ext system messages in
  modify (with_effects (λ l, l ++ [EvResponder system messages reply]));;
  match reply with
  | Some assistant_message => mret assistant_message
  | None => raise ResponderError
  end.

(** Lines 244-253 of [chat]: the apartment id the request resolves to
    ([inr]), or the response of the early return ([inl]). *)
Definition chat_resolve_apartment (guest_id : string) (apartment_id : option string)
    : M World (Response + string) :=
  if negb (PyStr.truthy apartment_id) then
    guest_info ← load_guest_info guest_id;
    if doc_truthy guest_info then
      apartment_id ← subscript_apartment_id guest_info;
      mret (inr apartment_id)
    else
      mret (inl (JError "apartment_id es requerido para nuevos huéspedes", 400))
  else
    let apartment_id := default "" apartment_id in
    save_guest_info guest_id apartment_id;;
    mret (inr apartment_id).

(** Lines 261-309 of [chat]: the guest's entry, the call to the hosted
    model and the write of the history. *)
Definition chat_generate_response (guest_id apartment_id message : string)
    (apartment_info : ApartmentInfo) : M World Response :=
  chat_history ← get_chat_history guest_id;
  chat_history ← py_append chat_history (new_message "user" message);
  try_except
    (let api_messages := api_messages_of chat_history in
     assistant_message ←
       call_responder (get_concierge_system_prompt apartment_info) api_messages;
     chat_history ←
       py_append (HistoryDoc chat_history) (new_message "assistant" assistant_message);
     save_chat_history guest_id chat_history;;
     mret (JChat assistant_message apartment_id guest_id, 200))
    (λ e, mret (JError "Error al procesar la solicitud", 500)).

(** [chat] (lines 225-309). *)
Definition chat (data : ChatRequest) : M World Response :=
  let guest_id := req_guest_id data in
  let apartment_id := req_apartment_id data in
  let message := req_message data in
  if negb (PyStr.truthy guest_id) || negb (PyStr.truthy message) then
    mret (JError "guest_id y message son requeridos", 400)
  else
    let guest_id := default "" guest_id in
    let message := default "" message in
    resolved ← chat_resolve_apartment guest_id apartment_id;
    match resolved with
    | inl response => mret response
    | inr apartment_id =>
        apartment_info ← load_apartment_info apartment_id;
        match apartment_info with
        | None =>
            mret (JError ("No se encontró información para el apartamento "
                          +:+ apartment_id), 404)
        | Some apartment_info =>
            chat_generate_response guest_id apartment_id message apartment_info
        end
    end.

(** [get_history] (lines 311-321). *)
Definition get_history (guest_id : string) : M World Response :=
  history ← get_chat_history guest_id;
  guest_info ← load_guest_info guest_id;
  apartment_id ←
    (if doc_truthy guest_info then
       apartment_id ← subscript_apartment_id guest_info;
       mret (Some apartment_id)
     else mret None);
  mret (JHistory guest_id apartment_id history, 200).

(** [reset_chat] (lines 323-333). *)
Definition reset_chat (guest_id : string) : M World Response :=
  w ← get;
  (if bool_decide (is_Some (chat_history w !! history_file guest_id)) then
     modify (with_chat_history (delete (history_file guest_id)))
   else mret tt);;
  mret (JReset "Historial reiniciado exitosamente" guest_id, 200).

(** [list_documents] (lines 163-177). *)
Definition list_documents (apartment_id : string) : M World Response :=
  w ← get;
  match apartments_data w !! apartment_id with
  | None => mret (JError "Apartamento no encontrado", 404)
  | Some listing =>
      mret (JDocuments apartment_id (filter (λ f, allowed_file f) (fst <$> listing)),
            200)
  end.

(** [upload_document] (lines 179-207); [files_file] is
    [request.files['file']] when the part is present. *)
Definition upload_document (apartment_id : string) (files_file : option FileStorage)
    : M World Response :=
  match files_file with
  | None => mret (JError "No se envió ningún archivo", 400)
  | Some file =>
      if bool_decide (file_filename file = "") then
        mret (JError "Nombre de archivo vacío", 400)
      else if negb (allowed_file (file_filename file)) then
        mret (JError "Tipo de archivo no permitido", 400)
      else
        (* os.makedirs(apartment_folder, exist_ok=True) *)
        modify (with_apartments_data (λ dirs,
          match dirs !! apartment_id with
          | Some _ => dirs
          | None => <[apartment_id := []]> dirs
          end));;
        let filename := secure_filename ext (file_filename file) in
        (* file.save(filepath): the folder itself when the name is empty *)
        (if bool_decide (filename = "") then raise IsADirectoryError
         else modify (with_apartments_data
                        (alter (write_file filename (file_data file)) apartment_id)));;
        mret (JUpload "Documento subido exitosamente" apartment_id filename, 200)
  end.

Definition VERIFY_TOKEN : string :=
  default "myrentalhost_verify_token" (env_WHATSAPP_VERIFY_TOKEN ext).

(** The [GET] branch of [whatsapp_webhook] (lines 342-354); each query
    argument is [None] when absent. *)
Definition whatsapp_webhook_get (mode token challenge : option string) : ViewReturn :=
  if bool_decide (mode = Some "subscribe") && bool_decide (token = Some VERIFY_TOKEN)
  then Plain challenge
  else WithStatus "Forbidden" 403.

End App.

(** ** The phone registry ([whatsapp_integration.py]) *)

Module WhatsApp.

(** The names a method body of this module can resolve as globals: the
    imports of lines 6-8 and the three top-level definitions.  ([json] is
    imported inside [_load_registry] and [_save_registry] only, as a
    local name.)  A name that is neither here nor a builtin raises
    [NameError] when it is evaluated. *)
Definition module_globals : list string :=
  ["requests"; "os"; "Dict"; "Optional";
   "WhatsAppClient"; "GuestPhoneRegistry"; "process_whatsapp_message"].

(** The dict stored per phone number by [register_guest]. *)
Record RegistryEntry := {
  entry_apartment_id : string;
  entry_guest_name : option string;
  entry_registered_at : string
}.

(** A [GuestPhoneRegistry] object ([self.storage_file], [self.registry])
    together with the files on disk and the clock. *)
Record RegistryState := {
  storage_file : string;
  registry : gmap string RegistryEntry;
  disk : gmap string (gmap string RegistryEntry);
  reg_clock : nat
}.

(** [_load_registry] (lines 138-144). *)
Definition _load_registry (storage_file : string)
    (disk : gmap string (gmap string RegistryEntry)) : gmap string RegistryEntry :=
  match disk !! storage_file with
  | Some r => r
  | None => ∅
  end.

(** [__init__] (lines 134-136). *)
Definition init (storage_file : string)
    (disk : gmap string (gmap string RegistryEntry)) (now : nat) : RegistryState :=
  {| storage_file := storage_file;
     registry := _load_registry storage_file disk;
     disk := disk;
     reg_clock := now |}.

(** Evaluation of a global name. *)
Definition load_global (name : string) : M RegistryState unit :=
  if bool_decide (name ∈ module_globals) then mret tt else raise (NameError name).

Section Registry.
Context (ext : Externals).

(** [datetime.now().isoformat()] as this module evaluates it. *)
Definition datetime_now_isoformat : M RegistryState string :=
  load_global "datetime";;
  s ← get;
  modify (λ s, {| storage_file := storage_file s; registry := registry s;
                  disk := disk s; reg_clock := S (reg_clock s) |});;
  mret (isoformat_at ext (reg_clock s)).

(** [_save_registry] (lines 146-150). *)
Definition _save_registry : M RegistryState unit :=
  modify (λ s, {| storage_file := storage_file s; registry := registry s;
                  disk := <[storage_file s := registry s]> (disk s);
                  reg_clock := reg_clock s |}).

(** [register_guest] (lines 152-167): the dict display is evaluated,
    then stored under the phone number, then the registry is saved. *)
Definition register_guest (phone_number apartment_id : string)
    (guest_name : option string) : M RegistryState unit :=
  registered_at ← datetime_now_isoformat;
  let entry := {| entry_apartment_id := apartment_id;
                  entry_guest_name := guest_name;
                  entry_registered_at := registered_at |} in
  modify (λ s, {| storage_file := storage_file s;
                  registry := <[phone_number := entry]> (registry s);
                  disk := disk s; reg_clock := reg_clock s |});;
  _save_registry.

(** [get_apartment_id] (lines 169-172); a stored entry is a dict with
    three keys, hence truthy. *)
Definition get_apartment_id (phone_number : string) : M RegistryState (option string) :=
  s ← get;
  mret (match registry s !! phone_number with
        | Some guest_info => Some (entry_apartment_id guest_info)
        | None => None
        end).

(** [unregister_guest] (lines 174-178). *)
Definition unregister_guest (phone_number : string) : M RegistryState unit :=
  s ← get;
  if bool_decide (is_Some (registry s !! phone_number)) then
    modify (λ s, {| storage_file := storage_file s;
                    registry := delete phone_number (registry s);
                    disk := disk s; reg_clock := reg_clock s |});;
    _save_registry
  else mret tt.

End Registry.

End WhatsApp.

(** ** The remaining document views ([app.py]) *)

(** The JSON bodies of [list_apartments] and [delete_document]. *)
Inductive AdminBody :=
| JApartments (apartments : list string)
| JDeleted (message apartment_id filename : string)
| JNotFound (error : string).

(** [os.remove(filepath)] for a file of a directory. *)
Definition remove_file (filename : string) (d : Directory) : Directory :=
  filter (λ entry, entry.1 ≠ filename) d.

Section Admin.
Context (ext : Externals).


(** [delete_document] (lines 209-223).  With an empty sanitized name the
    path is the apartment folder itself, which [os.remove] refuses. *)
Definition delete_document (apartment_id filename : string) : M World (AdminBody * nat) :=
  w ← get;
  let name := secure_filename ext filename in
  match apartments_data w !! apartment_id with
  | None => mret (JNotFound "Documento no encontrado", 404)
  | Some listing =>
      if bool_decide (name = "") then raise IsADirectoryError
      else if bool_decide (name ∈ listing.*1) then
        modify (with_apartments_data (alter (remove_file name) apartment_id));;
        mret (JDeleted "Documento eliminado exitosamente" apartment_id filename, 200)
      else mret (JNotFound "Documento no encontrado", 404)
  end.

End Admin.

(** ** JSON values and the Python operations applied to them *)

Module Json.

(** A decoded JSON document.  Numbers are integers here; an object holds
    the items of the decoded dict (keys distinct). *)
#[warnings="-register-all"] Inductive value :=
| Null
| Bool (b : bool)
| Num (n : Z)
| Str (s : string)
| Arr (items : list value)
| Obj (fields : list (string * value)).

Inductive exn :=
| KeyError
| IndexError
| TypeError.

Inductive result (A : Type) :=
| Got (a : A)
| Fail (e : exn).
Arguments Got {A} a.
Arguments Fail {A} e.

Definition bind {A B} (m : result A) (k : A → result B) : result B :=
  match m with
  | Got a => k a
  | Fail e => Fail e
  end.

Fixpoint assoc (key : string) (fields : list (string * value)) : option value :=
  match fields with
  | [] => None
  | (k, v) :: rest => if decide (k = key) then Some v else assoc key rest
  end.

(** The first character of a string: one UTF-8 sequence. *)
Definition first_char (s : string) : string :=
  match s with
  | EmptyString => EmptyString
  | String c _ =>
      let n := nat_of_ascii c in
      let width := if (n <? 128)%nat then 1
                   else if (n <? 224)%nat then 2
                   else if (n <? 240)%nat then 3 else 4 in
      String.substring 0 width s
  end.

(** [needle in text] for two strings. *)
Fixpoint infix (needle text : string) : bool :=
  String.prefix needle text
  || match text with
     | EmptyString => false
     | String _ text' => infix needle text'
     end.

(** [v[key]] for a string key. *)
Definition subscript (v : value) (key : string) : result value :=
  match v with
  | Obj fields =>
      match assoc key fields with
      | Some x => Got x
      | None => Fail KeyError
      end
  | _ => Fail TypeError
  end.

(** [v[0]]. *)
Definition subscript0 (v : value) : result value :=
  match v with
  | Arr (x :: _) => Got x
  | Arr [] => Fail IndexError
  | Str EmptyString => Fail IndexError
  | Str s => Got (Str (first_char s))
  | Obj _ => Fail KeyError
  | _ => Fail TypeError
  end.

(** [key in v] for a string key. *)
Definition contains (key : string) (v : value) : result bool :=
  match v with
  | Obj fields => Got (bool_decide (is_Some (assoc key fields)))
  | Arr items => Got (existsb (λ x, match x with
                                    | Str s => bool_decide (s = key)
                                    | _ => false
                                    end) items)
  | Str s => Got (infix key s)
  | _ => Fail TypeError
  end.

(** [v == s] for a string literal [s]. *)
Definition is_str (s : string) (v : value) : bool :=
  match v with
  | Str s' => bool_decide (s' = s)
  | _ => false
  end.

End Json.

(** The [POST] branch of [whatsapp_webhook] ([app.py], lines 356-385):
    the status of the JSON answer and the HTTP status.  The [print] of
    line 377 is not modelled. *)
Definition whatsapp_webhook_post (data : Json.value) : string * nat :=
  let body :=
    Json.bind (Json.subscript data "entry") (λ entries,
    Json.bind (Json.subscript0 entries) (λ entry,
    Json.bind (Json.subscript entry "changes") (λ changes_list,
    Json.bind (Json.subscript0 changes_list) (λ changes,
    Json.bind (Json.subscript changes "value") (λ value,
    Json.bind (Json.contains "messages" value) (λ has_messages,
    if has_messages then
      Json.bind (Json.subscript value "messages") (λ messages,
      Json.bind (Json.subscript0 messages) (λ message,
      Json.bind (Json.subscript message "from") (λ from_number,
      Json.bind (Json.subscript message "text") (λ text,
      Json.bind (Json.subscript text "body") (λ message_text,
      Json.Got (Some ("received", 200)))))))
    else Json.Got None)))))) in
  match body with
  | Json.Got (Some response) => response
  | Json.Got None => ("ok", 200)
  | Json.Fail _ => ("error", 500)
  end.

(** ** The messaging client and the inbound pipeline
    ([whatsapp_integration.py]) *)

Module Messaging.

(** What can be raised inside [process_whatsapp_message]. *)
Inductive Exn :=
| JsonError (e : Json.exn)
| RequestException (text : string)
| JSONDecodeError.

(** A [requests] response of the concierge: [response.ok] and what
    [response.json()] gives ([None] when it raises). *)
Record HttpResponse := {
  resp_ok : bool;
  resp_json : option Json.value
}.

(** The network.  [graph_api url headers data] is the [requests.post] of
    the client methods followed by [raise_for_status()] and [json()]: the
    decoded body, or the text of the [RequestException].
    [concierge_api url body] is the [requests.post] of line 236. *)
Record Network := {
  graph_api : string → list (string * string) → Json.value → string + Json.value;
  concierge_api : string → Json.value → string + HttpResponse
}.

(** The requests sent, oldest first (instrumentation). *)
Inductive Call :=
| GraphCall (url : string) (headers : list (string * string)) (data : Json.value)
| ConciergeCall (url : string) (body : Json.value).

Inductive Outcome (A : Type) :=
| Done (a : A)
| Thrown (e : Exn).
Arguments Done {A} a.
Arguments Thrown {A} e.

Definition Run (A : Type) : Type := list Call → Outcome A * list Call.

Global Instance Run_ret : MRet Run := λ A a log, (Done a, log).

Global Instance Run_bind : MBind Run := λ A B k m log,
  match m log with
  | (Done a, log') => k a log'
  | (Thrown e, log') => (Thrown e, log')
  end.

Definition throw {A} (e : Exn) : Run A := λ log, (Thrown e, log).

Definition record (c : Call) : Run unit := λ log, (Done tt, log ++ [c]).

(** A JSON operation inside the pipeline. *)
Definition lift {A} (r : Json.result A) : Run A :=
  match r with
  | Json.Got a => mret a
  | Json.Fail e => throw (JsonError e)
  end.

(** A [WhatsAppClient] object: the two environment variables read by
    [__init__] (lines 13-17), [None] when unset. *)
Record WhatsAppClient := {
  access_token : option string;
  phone_number_id : option string
}.

(** An f-string placeholder holding [None] or a string. *)
Definition fstr (v : option string) : string := default "None" v.

Definition base_url : string := "https://graph.facebook.com/v18.0".

Definition messages_url (self : WhatsAppClient) : string :=
  base_url +:+ "/" +:+ fstr (phone_number_id self) +:+ "/messages".

Definition headers (self : WhatsAppClient) : list (string * string) :=
  [("Authorization", "Bearer " +:+ fstr (access_token self));
   ("Content-Type", "application/json")].

(** The status dict of [process_whatsapp_message]. *)
Inductive Status :=
| NoMessage
| UnsupportedType
| GuestNotRegistered
| Success (from apartment message response : Json.value)
| ApiError
| Error (e : Exn).

Definition unsupported_text : string :=
  "Lo siento, solo puedo procesar mensajes de texto por el momento.".

Definition not_registered_text : string :=
  "¡Hola! 👋 Para poder ayudarte, necesito saber en qué apartamento te alojas. "
  +:+ "Por favor, contacta con nuestro equipo de soporte para completar tu registro.".

Definition api_error_text : string :=
  "Disculpa, estoy teniendo problemas técnicos. "
  +:+ "Por favor, intenta de nuevo en unos momentos o contacta con nuestro equipo.".

(** [guest_registry.get_apartment_id(from_number)] (lines 169-172) for a
    decoded JSON value: a list or a dict is unhashable, any other value
    that is not a string is no key of the registry. *)
Definition get_apartment_id (registry : gmap string WhatsApp.RegistryEntry)
    (phone_number : Json.value) : Run (option string) :=
  match phone_number with
  | Json.Str s =>
      mret (match registry !! s with
            | Some guest_info => Some (WhatsApp.entry_apartment_id guest_info)
            | None => None
            end)
  | Json.Arr _ | Json.Obj _ => throw (JsonError Json.TypeError)
  | _ => mret None
  end.

Section Pipeline.
Context (net : Network).

(** The [try]/[except requests.exceptions.RequestException] shared by the
    three client methods. *)
Definition post_to_graph (self : WhatsAppClient) (data : Json.value) : Run Json.value :=
  record (GraphCall (messages_url self) (headers self) data);;
  match graph_api net (messages_url self) (headers self) data with
  | inr body => mret body
  | inl e => mret (Json.Obj [("error", Json.Str e)])
  end.

(** [send_message] (lines 19-54). *)
Definition send_message (self : WhatsAppClient) (to message : Json.value)
    : Run Json.value :=
  post_to_graph self
    (Json.Obj [("messaging_product", Json.Str "whatsapp");
               ("recipient_type", Json.Str "individual");
               ("to", to);
               ("type", Json.Str "text");
               ("text", Json.Obj [("preview_url", Json.Bool false);
                                  ("body", message)])]).

(** [send_template_message] (lines 56-94). *)
Definition send_template_message (self : WhatsAppClient) (to template_name : Json.value)
    (language_code : Json.value) : Run Json.value :=
  post_to_graph self
    (Json.Obj [("messaging_product", Json.Str "whatsapp");
               ("to", to);
               ("type", Json.Str "template");
               ("template",
                Json.Obj [("name", template_name);
                          ("language", Json.Obj [("code", language_code)])])]).

(** [mark_as_read] (lines 96-125). *)
Definition mark_as_read (self : WhatsAppClient) (message_id : Json.value)
    : Run Json.value :=
  post_to_graph self
    (Json.Obj [("messaging_product", Json.Str "whatsapp");
               ("status", Json.Str "read");
               ("message_id", message_id)]).

(** Lines 206-266 of [process_whatsapp_message]: what is done with the
    first message of the notification. *)
Definition process_message (message : Json.value) (whatsapp_client : WhatsAppClient)
    (guest_registry : gmap string WhatsApp.RegistryEntry) (concierge_api_url : string)
    : Run Status :=
  from_number ← lift (Json.subscript message "from");
  message_id ← lift (Json.subscript message "id");
  message_type ← lift (Json.subscript message "type");
  if negb (Json.is_str "text" message_type) then
    send_message whatsapp_client from_number (Json.Str unsupported_text);;
    mret UnsupportedType
  else
    text ← lift (Json.subscript message "text");
    message_text ← lift (Json.subscript text "body");
    mark_as_read whatsapp_client message_id;;
    apartment_id ← get_apartment_id guest_registry from_number;
    if negb (PyStr.truthy apartment_id) then
      send_message whatsapp_client from_number (Json.Str not_registered_text);;
      mret GuestNotRegistered
    else
      let apartment_id := Json.Str (default "" apartment_id) in
      let url := concierge_api_url +:+ "/chat" in
      let body := Json.Obj [("guest_id", from_number);
                            ("apartment_id", apartment_id);
                            ("message", message_text)] in
      record (ConciergeCall url body);;
      match concierge_api net url body with
      | inl e => throw (RequestException e)
      | inr response =>
          if resp_ok response then
            match resp_json response with
            | None => throw JSONDecodeError
            | Some data =>
                assistant_response ← lift (Json.subscript data "response");
                send_message whatsapp_client from_number assistant_response;;
                mret (Success from_number apartment_id message_text assistant_response)
            end
          else
            send_message whatsapp_client from_number (Json.Str api_error_text);;
            mret ApiError
      end.

(** The body of the [try] of [process_whatsapp_message] (lines 197-266). *)
Definition process_body (webhook_data : Json.value) (whatsapp_client : WhatsAppClient)
    (guest_registry : gmap string WhatsApp.RegistryEntry) (concierge_api_url : string)
    : Run Status :=
  entries ← lift (Json.subscript webhook_data "entry");
  entry ← lift (Json.subscript0 entries);
  changes_list ← lift (Json.subscript entry "changes");
  changes ← lift (Json.subscript0 changes_list);
  value ← lift (Json.subscript changes "value");
  has_messages ← lift (Json.contains "messages" value);
  if negb has_messages then mret NoMessage
  else
    messages ← lift (Json.subscript value "messages");
    message ← lift (Json.subscript0 messages);
    process_message message whatsapp_client guest_registry concierge_api_url.

(** [process_whatsapp_message] (lines 181-270). *)
Definition process_whatsapp_message (webhook_data : Json.value)
    (whatsapp_client : WhatsAppClient)
    (guest_registry : gmap string WhatsApp.RegistryEntry) (concierge_api_url : string)
    : Run Status :=
  λ log,
    match process_body webhook_data whatsapp_client guest_registry concierge_api_url log with
    | (Done status, log') => (Done status, log')
    | (Thrown e, log') => (Done (Error e), log')
    end.

End Pipeline.

End Messaging.

(** ** The WSGI entry point ([passenger_wsgi.py]) *)

Module Passenger.

(** What the name [application] can be bound to: the Flask object of
    [app.py], or the function defined at lines 16-17. *)
Inductive Object :=
| FlaskApplication
| WsgiFunction.

(** A binding statement of the module body. *)
Inductive Statement :=
| ImportFrom (name : string) (object : Object)
| Def (name : string) (object : Object).

Definition execute (globals : gmap string Object) (s : Statement) : gmap string Object :=
  match s with
  | ImportFrom name object => <[name := object]> globals
  | Def name object => <[name := object]> globals
  end.

(** Lines 13 and 16 in order (the interpreter switch of lines 5-7 and
    the path of line 10 bind no name used below). *)
Definition module_body : list Statement :=
  [ImportFrom "application" FlaskApplication; Def "application" WsgiFunction].

Definition module_globals : gmap string Object :=
  foldl execute ∅ module_body.

Inductive Served :=
| FlaskResponse
| RecursionError
| NameError.

(** A call of [application(environ, start_response)] with [frames] stack
    frames left before the recursion limit: the body of the function
    looks its callee up among the globals when it runs. *)
Fixpoint call (frames : nat) (callee : Object) : Served :=
  match callee with
  | FlaskApplication => FlaskResponse
  | WsgiFunction =>
      match frames with
      | O => RecursionError
      | S frames' =>
          match module_globals !! "application" with
          | Some callee' => call frames' callee'
          | None => NameError
          end
      end
  end.

(** What the server does with the module: it calls its [application]. *)
Definition serve (frames : nat) : Served :=
  match module_globals !! "application" with
  | Some callee => call frames callee
  | None => NameError
  end.

End Passenger.

(** ** Vocabulary of the statements *)

(** The extension test the loader applies to a file name (lines 77-82). *)
Definition loader_accepts (filename : string) : bool :=
  PyStr.endswith filename ".pdf"
  || PyStr.endswith filename ".docx"
  || PyStr.endswith filename ".doc".

(** The extractor the loader applies to an accepted file. *)
Definition extracted (ext : Externals) (entry : string * string) : string * string :=
  (entry.1,
   if PyStr.endswith entry.1 ".pdf" then extract_text_from_pdf ext entry.2
   else extract_text_from_docx ext entry.2).

(** [needle in text]. *)
Definition occurs_in (needle text : string) : Prop :=
  ∃ before after, text = before +:+ needle +:+ after.

(** The status of a response, when the view returned one. *)
Definition status_of {S} (r : Result Response * S) : option nat :=
  match r.1 with
  | Ok (_, status) => Some status
  | Raise _ => None
  end.

(** The events a run added to the log. *)
Definition new_effects (w w' : World) (new : list Event) : Prop :=
  effects w' = effects w ++ new.

(** ** Names that are one entry of a folder *)

Definition NUL : ascii := ascii_of_nat 0.

(** The longest file name, in bytes, of the usual POSIX file systems. *)
Definition NAME_MAX : nat := 255.

(** A string that, joined to a folder, denotes one entry of that folder:
    not empty, not [.] or [..], free of [/] and of the NUL character, and
    at most [NAME_MAX] bytes long.  Any other string is resolved by the
    file system as a path that names the folder itself, its parent or an
    entry of another folder, or is refused by [open] and by [os.listdir]. *)
Definition is_entry_name (name : string) : bool :=
  negb (bool_decide (name ∈ [""; "."; ".."]))
  && negb (PyStr.contains_char "/" name)
  && negb (PyStr.contains_char NUL name)
  && bool_decide (String.length name ≤ NAME_MAX).

(** A guest id whose history file and link file are entries of the
    [chat_history] folder. *)
Definition guest_id_names_files (guest_id : string) : bool :=
  is_entry_name (guest_id +:+ ".json") && is_entry_name (guest_id +:+ "_info.json").

(** The apartment a [chat] request is for (lines 244-253): the one the
    request names or, when it names none, the one of the guest's link on
    file. *)
Definition requested_apartment (data : ChatRequest) (guest_id : string) (w : World)
    (apartment_id : string) : Prop :=
  (req_apartment_id data = Some apartment_id ∧ apartment_id ≠ "")
  ∨ (PyStr.truthy (req_apartment_id data) = false
     ∧ ∃ info, chat_history w !! guest_file guest_id = Some (InfoDoc info)
               ∧ info_apartment_id info = apartment_id).

(** ** Sample collaborators and stores *)

Definition sample_externals (reply : option string) : Externals :=
  {| isoformat_at := λ n, "2024-05-01T10:00:0" +:+ String (ascii_of_nat (48 + n `mod` 10)) "";
     extract_text_from_pdf := λ data, data;
     extract_text_from_docx := λ data, data;
     responder := λ _ _, reply;
     secure_filename := λ name, name;
     env_WHATSAPP_VERIFY_TOKEN := None |}.

Definition sample_world : World :=
  {| apartments_data := {[ "apt-1" := [("wifi.pdf", "clave: 1234"); ("notes.txt", "x")] ]};
     chat_history :=
       {[ history_file "ana" :=
            HistoryDoc [ {| msg_role := "user"; msg_content := "hola";
                            msg_timestamp := "2024-04-30T09:00:00" |};
                         {| msg_role := "assistant"; msg_content := "buenos días";
                            msg_timestamp := "2024-04-30T09:00:02" |} ];
          guest_file "ana" :=
            InfoDoc {| info_guest_id := "ana"; info_apartment_id := "apt-1";
                       info_created_at := "2024-04-30T08:59:59" |} ]};
     clock := 0;
     effects := [] |}.

Definition sample_request (guest_id apartment_id message : option string) : ChatRequest :=
  {| req_guest_id := guest_id; req_apartment_id := apartment_id; req_message := message |}.

(** ** Vocabulary of the further statements *)

(** The log events of a call to the hosted model with its outcome. *)
Definition responder_events (guest_id system : string)
    (messages : list (string * string)) (reply : option string) : list Event :=
  EvResponder system messages reply
  :: match reply with
     | Some _ => [EvSaveChatHistory guest_id]
     | None => []
     end.

Definition responder_result (guest_id apartment_id : string) (reply : option string)
    : Result Response :=
  match reply with
  | Some text => Ok (JChat text apartment_id guest_id, 200)
  | None => Ok (JError "Error al procesar la solicitud", 500)
  end.

Definition is_responder_call (e : Event) : bool :=
  match e with
  | EvResponder _ _ _ => true
  | _ => false
  end.


(** [data['entry'][0]['changes'][0]['value']]. *)
Definition notification_value (data : Json.value) : Json.result Json.value :=
  Json.bind (Json.subscript data "entry") (λ entries,
  Json.bind (Json.subscript0 entries) (λ entry,
  Json.bind (Json.subscript entry "changes") (λ changes_list,
  Json.bind (Json.subscript0 changes_list) (λ changes,
  Json.subscript changes "value")))).

(** The first message of a notification: [None] when the value has no
    [messages]. *)
Definition first_message (data : Json.value) : Json.result (option Json.value) :=
  Json.bind (notification_value data) (λ value,
  Json.bind (Json.contains "messages" value) (λ has_messages,
  if has_messages then
    Json.bind (Json.subscript value "messages") (λ messages,
    Json.bind (Json.subscript0 messages) (λ message, Json.Got (Some message)))
  else Json.Got None)).

(** The payload of a text message sent by [send_message]. *)
Definition text_payload (to message : Json.value) : Json.value :=
  Json.Obj [("messaging_product", Json.Str "whatsapp");
            ("recipient_type", Json.Str "individual");
            ("to", to);
            ("type", Json.Str "text");
            ("text", Json.Obj [("preview_url", Json.Bool false);
                               ("body", message)])].

Definition read_payload (message_id : Json.value) : Json.value :=
  Json.Obj [("messaging_product", Json.Str "whatsapp");
            ("status", Json.Str "read");
            ("message_id", message_id)].

Definition chat_payload (guest_id apartment_id message : Json.value) : Json.value :=
  Json.Obj [("guest_id", guest_id); ("apartment_id", apartment_id);
            ("message", message)].

(** A request of the client to the messages endpoint. *)
Definition graph_call (client : Messaging.WhatsAppClient) (data : Json.value)
    : Messaging.Call :=
  Messaging.GraphCall (Messaging.messages_url client) (Messaging.headers client) data.

(** ** Sample notifications and network *)

Definition sample_notification (message : Json.value) : Json.value :=
  Json.Obj
    [("object", Json.Str "whatsapp_business_account");
     ("entry",
      Json.Arr
        [Json.Obj
           [("id", Json.Str "1");
            ("changes",
             Json.Arr
               [Json.Obj
                  [("field", Json.Str "messages");
                   ("value",
                    Json.Obj [("messaging_product", Json.Str "whatsapp");
                              ("messages", Json.Arr [message])])]])]])].

Definition sample_text_message (from body : string) : Json.value :=
  Json.Obj [("from", Json.Str from); ("id", Json.Str "wamid.1");
            ("type", Json.Str "text");
            ("text", Json.Obj [("body", Json.Str body)])].

Definition sample_image_message (from : string) : Json.value :=
  Json.Obj [("from", Json.Str from); ("id", Json.Str "wamid.2");
            ("type", Json.Str "image");
            ("image", Json.Obj [("id", Json.Str "media.1")])].

Definition sample_network (answer : string + Messaging.HttpResponse)
    : Messaging.Network :=
  {| Messaging.graph_api := λ _ _ _, inr (Json.Obj [("messages", Json.Arr [])]);
     Messaging.concierge_api := λ _ _, answer |}.

Definition sample_client : Messaging.WhatsAppClient :=
  {| Messaging.access_token := Some "token"; Messaging.phone_number_id := Some "1055" |}.

Definition sample_registry : gmap string WhatsApp.RegistryEntry :=
  {[ "34612345678" :=
       {| WhatsApp.entry_apartment_id := "apt-1";
          WhatsApp.entry_guest_name := Some "Juan";
          WhatsApp.entry_registered_at := "2024-05-01T09:00:00" |} ]}.

(** * Properties *)

(** ** Worked examples *)

Example allowed_file_pdf : allowed_file "notes.pdf" = true.
Proof. reflexivity. Qed.

Example allowed_file_upper : allowed_file "Guide.PDF" = true.
Proof. reflexivity. Qed.

Example allowed_file_exe : allowed_file "setup.exe" = false.
Proof. reflexivity. Qed.

Example allowed_file_no_dot : allowed_file "pdf" = false.
Proof. reflexivity. Qed.

Example allowed_file_last_dot : allowed_file "guía.tar.docx" = true.
Proof. reflexivity. Qed.

Example chat_sample_success :
  (chat (sample_externals (Some "La clave es 1234"))
     (sample_request (Some "ana") None (Some "wifi?")) sample_world).1
  = Ok (JChat "La clave es 1234" "apt-1" "ana", 200).
Proof. vm_compute. reflexivity. Qed.

Example load_sample_apartment :
  (load_apartment_info (sample_externals None) "apt-1" sample_world).1
  = Ok (Some {| apt_apartment_id := "apt-1";
                apt_documents := [("wifi.pdf", "clave: 1234")];
                apt_full_text := section_marker "wifi.pdf" +:+ "clave: 1234" |}).
Proof. vm_compute. reflexivity. Qed.

(** Why the [chat_history] folder is one map: the history file of guest
    [bob_info] is the link file of guest [bob]. *)
Example history_file_of_entry_name :
  history_file "ana" = "chat_history/ana.json"
  ∧ guest_file "ana" = "chat_history/ana_info.json"
  ∧ guest_id_names_files "ana" = true
  ∧ is_entry_name "apt-1" = true.
Proof. repeat split. Qed.

(** Ids that are not entry names: the link file of guest [a/b] lies in a
    folder [chat_history/a], and none of the others names an entry of
    the folder it is joined to. *)
Example guest_file_with_separator :
  guest_file "a/b" = "chat_history/a/b_info.json"
  ∧ guest_id_names_files "a/b" = false
  ∧ guest_id_names_files "./ana" = false
  ∧ guest_id_names_files "../apartments_data/apt-1/evil" = false
  ∧ is_entry_name "." = false
  ∧ is_entry_name ".." = false
  ∧ is_entry_name "apt-1/wifi.pdf" = false.
Proof. repeat split. Qed.

Example history_file_can_be_a_guest_file :
  history_file "bob_info" = guest_file "bob".
Proof. reflexivity. Qed.

Example chat_sample_failure :
  (chat (sample_externals None)
     (sample_request (Some "ana") None (Some "wifi?")) sample_world).1
  = Ok (JError "Error al procesar la solicitud", 500).
Proof. vm_compute. reflexivity. Qed.

(** ** File names *)

Lemma append_cancel_l (s a b : string) : s +:+ a = s +:+ b → a = b.
Proof.
  induction s as [|c s IH]; simpl; [done|].
  intros [= H]. by apply IH.
Qed.

(** A guest's history file is never that guest's link file. *)
Lemma history_file_ne_guest_file (guest_id : string) :
  history_file guest_id ≠ guest_file guest_id.
Proof.
  unfold history_file, guest_file. intros H.
  apply append_cancel_l, append_cancel_l in H. discriminate H.
Qed.

(** ** Webhook verification *)

(** C5, as stated, fails: with the configured secret as token but a mode
    other than [subscribe], the handshake answers 403, not the challenge. *)
Lemma webhook_token_match_alone_is_forbidden :
  let ext := sample_externals None in
  Some "myrentalhost_verify_token" = Some (VERIFY_TOKEN ext)
  ∧ whatsapp_webhook_get ext (Some "unsubscribe")
      (Some "myrentalhost_verify_token") (Some "1158201444")
    = WithStatus "Forbidden" 403.
Proof. split; reflexivity. Qed.

(** C5, amended: webhook verification returns the challenge exactly when
    the mode is [subscribe] and the supplied token equals the configured
    secret, and the 403 result in every other case; so the challenge is
    never returned when the token differs from the secret. *)
Theorem webhook_verify_challenge_iff (ext : Externals)
    (mode token challenge : option string) :
  (whatsapp_webhook_get ext mode token challenge = Plain challenge
   ↔ mode = Some "subscribe" ∧ token = Some (VERIFY_TOKEN ext))
  ∧ (whatsapp_webhook_get ext mode token challenge = WithStatus "Forbidden" 403
     ↔ ¬ (mode = Some "subscribe" ∧ token = Some (VERIFY_TOKEN ext))).
Proof.
  unfold whatsapp_webhook_get.
  destruct (bool_decide_reflect (mode = Some "subscribe")) as [Hm|Hm];
    destruct (bool_decide_reflect (token = Some (VERIFY_TOKEN ext))) as [Ht|Ht];
    simpl; split; split; try done; try tauto; intros []; done.
Qed.

Lemma webhook_verify_challenge_iff_witness :
  whatsapp_webhook_get (sample_externals None) (Some "subscribe")
    (Some "myrentalhost_verify_token") (Some "1158201444")
  = Plain (Some "1158201444")
  ∧ whatsapp_webhook_get (sample_externals None) (Some "subscribe")
      (Some "guess") (Some "1158201444")
    = WithStatus "Forbidden" 403.
Proof.
  split.
  - apply (webhook_verify_challenge_iff (sample_externals None)). by split.
  - apply (webhook_verify_challenge_iff (sample_externals None)).
    intros [_ [= H]].
Defined.

(** ** Running computations *)

Ltac unfold_monad :=
  unfold mbind, M_bind, mret, M_ret, get, modify, raise, try_except in *.

(** ** Uploads *)

(** C8: for an apartment id with no directory, an upload whose file name
    fails the allowed-extension test is answered 400 and leaves the store
    as it was: nothing is saved and the directory is not created. *)
Theorem upload_disallowed_extension_rejected (ext : Externals)
    (apartment_id : string) (file : FileStorage) (w : World) :
  apartments_data w !! apartment_id = None →
  allowed_file (file_filename file) = false →
  ∃ error,
    upload_document ext apartment_id (Some file) w = (Ok (JError error, 400), w)
    ∧ apartments_data (upload_document ext apartment_id (Some file) w).2 !! apartment_id
      = None.
Proof.
  intros Hdir Hext. unfold upload_document.
  case_bool_decide.
  - eexists. unfold_monad. simpl. split; [reflexivity|done].
  - rewrite Hext. simpl. eexists. unfold_monad. simpl. split; [reflexivity|done].
Qed.

Lemma upload_disallowed_extension_rejected_witness :
  ∃ error,
    upload_document (sample_externals None) "apt-9"
      (Some {| file_filename := "setup.exe"; file_data := "MZ" |}) sample_world
    = (Ok (JError error, 400), sample_world)
    ∧ apartments_data
        (upload_document (sample_externals None) "apt-9"
           (Some {| file_filename := "setup.exe"; file_data := "MZ" |}) sample_world).2
      !! "apt-9" = None.
Proof.
  apply (upload_disallowed_extension_rejected (sample_externals None) "apt-9"
           {| file_filename := "setup.exe"; file_data := "MZ" |} sample_world).
  - vm_compute. reflexivity.
  - vm_compute. reflexivity.
Defined.

(** ** Reset *)

(** C7: [reset_chat] answers 200, removes the guest's history file and
    leaves the guest's link file as it was; a following [get_history]
    shows an empty history with the apartment id it showed before. *)
Theorem reset_chat_clears_history_keeps_link (guest_id : string) (w : World) :
  (reset_chat guest_id w).1
    = Ok (JReset "Historial reiniciado exitosamente" guest_id, 200)
  ∧ (get_chat_history guest_id (reset_chat guest_id w).2).1 = Ok (HistoryDoc [])
  ∧ (load_guest_info guest_id (reset_chat guest_id w).2).1
      = (load_guest_info guest_id w).1
  ∧ ∀ apartment_id history,
      (get_history guest_id w).1 = Ok (JHistory guest_id apartment_id history, 200) →
      (get_history guest_id (reset_chat guest_id w).2).1
        = Ok (JHistory guest_id apartment_id (HistoryDoc []), 200).
Proof.
  assert (Hh : chat_history (reset_chat guest_id w).2 !! history_file guest_id = None).
  { unfold reset_chat. unfold_monad. simpl.
    case_bool_decide as Hex; simpl.
    - apply lookup_delete_eq.
    - by apply eq_None_not_Some. }
  assert (Hl : chat_history (reset_chat guest_id w).2 !! guest_file guest_id
               = chat_history w !! guest_file guest_id).
  { unfold reset_chat. unfold_monad. simpl.
    case_bool_decide; simpl; [|done].
    apply lookup_delete_ne, history_file_ne_guest_file. }
  split_and!.
  - unfold reset_chat. unfold_monad. simpl. by case_bool_decide.
  - unfold get_chat_history. unfold_monad. simpl. by rewrite Hh.
  - unfold load_guest_info. unfold_monad. simpl. by rewrite Hl.
  - intros apartment_id history.
    unfold get_history, get_chat_history, load_guest_info. unfold_monad. simpl.
    rewrite Hh, Hl. simpl.
    destruct (chat_history w !! history_file guest_id);
      destruct (chat_history w !! guest_file guest_id) as [[[|m h]|i]|];
      simpl; intros; simplify_eq; done.
Qed.

Lemma reset_chat_clears_history_keeps_link_witness :
  (get_history "ana" sample_world).1
    = Ok (JHistory "ana" (Some "apt-1")
            (HistoryDoc [ {| msg_role := "user"; msg_content := "hola";
                             msg_timestamp := "2024-04-30T09:00:00" |};
                          {| msg_role := "assistant"; msg_content := "buenos días";
                             msg_timestamp := "2024-04-30T09:00:02" |} ]), 200)
  ∧ (get_history "ana" (reset_chat "ana" sample_world).2).1
    = Ok (JHistory "ana" (Some "apt-1") (HistoryDoc []), 200).
Proof.
  assert (H : (get_history "ana" sample_world).1
    = Ok (JHistory "ana" (Some "apt-1")
            (HistoryDoc [ {| msg_role := "user"; msg_content := "hola";
                             msg_timestamp := "2024-04-30T09:00:00" |};
                          {| msg_role := "assistant"; msg_content := "buenos días";
                             msg_timestamp := "2024-04-30T09:00:02" |} ]), 200)).
  { vm_compute. reflexivity. }
  split; [exact H|].
  exact (proj2 (proj2 (proj2 (reset_chat_clears_history_keeps_link "ana" sample_world)))
           _ _ H).
Defined.

(** ** The chat turn, block by block *)

Ltac unfold_chat :=
  unfold chat_resolve_apartment, chat_generate_response,
    load_guest_info, save_guest_info, load_apartment_info,
    get_chat_history, py_append, new_message, call_responder, save_chat_history,
    subscript_apartment_id, datetime_now_isoformat,
    with_effects, with_chat_history, with_clock in *;
  unfold_monad; simpl in *.

Lemma truthy_Some (s : string) : s ≠ "" → PyStr.truthy (Some s) = true.
Proof. by destruct s. Qed.

Lemma truthy_inv (v : option string) :
  PyStr.truthy v = true → ∃ s, v = Some s ∧ s ≠ "".
Proof. destruct v as [[|c s]|]; simpl; try done. intros _. by eexists. Qed.

(** A supplied apartment id is written as the guest's link, stamped with
    the current time, and is the resolved id. *)
Lemma chat_resolve_apartment_supplied (ext : Externals)
    (guest_id apartment_id : string) (w : World) :
  apartment_id ≠ "" →
  chat_resolve_apartment ext guest_id (Some apartment_id) w
  = (Ok (inr apartment_id),
     {| apartments_data := apartments_data w;
        chat_history :=
          <[guest_file guest_id :=
              InfoDoc {| info_guest_id := guest_id;
                         info_apartment_id := apartment_id;
                         info_created_at := isoformat_at ext (clock w) |}]>
            (chat_history w);
        clock := S (clock w);
        effects := effects w ++ [EvSaveGuestInfo guest_id apartment_id] |}).
Proof.
  intros Ha. unfold chat_resolve_apartment.
  rewrite (truthy_Some _ Ha). reflexivity.
Qed.

(** Without an apartment id the store is only read. *)
Lemma chat_resolve_apartment_missing (ext : Externals)
    (guest_id : string) (apartment_id : option string) (w : World) :
  PyStr.truthy apartment_id = false →
  chat_resolve_apartment ext guest_id apartment_id w
  = (match chat_history w !! guest_file guest_id with
     | Some (InfoDoc info) => Ok (inr (info_apartment_id info))
     | Some (HistoryDoc (_ :: _)) => Raise TypeError
     | _ => Ok (inl (JError "apartment_id es requerido para nuevos huéspedes", 400))
     end, w).
Proof.
  intros Ha. unfold chat_resolve_apartment. rewrite Ha. unfold_chat.
  by destruct (chat_history w !! guest_file guest_id) as [[[|m h]|i]|].
Qed.

(** The three ways the last block of [chat] can end. *)
Lemma chat_generate_response_run (ext : Externals)
    (guest_id apartment_id message : string) (apartment_info : ApartmentInfo)
    (w : World) :
  chat_generate_response ext guest_id apartment_id message apartment_info w
  = match (get_chat_history guest_id w).1 with
    | Ok (HistoryDoc history) =>
        let guest_entry :=
          {| msg_role := "user"; msg_content := message;
             msg_timestamp := isoformat_at ext (clock w) |} in
        let system := get_concierge_system_prompt apartment_info in
        let messages := api_messages_of (history ++ [guest_entry]) in
        match responder ext system messages with
        | Some reply =>
            (Ok (JChat reply apartment_id guest_id, 200),
             {| apartments_data := apartments_data w;
                chat_history :=
                  <[history_file guest_id :=
                      HistoryDoc
                        (history ++
                           [guest_entry;
                            {| msg_role := "assistant"; msg_content := reply;
                               msg_timestamp := isoformat_at ext (S (clock w)) |}])]>
                    (chat_history w);
                clock := S (S (clock w));
                effects := effects w ++ [EvResponder system messages (Some reply);
                                         EvSaveChatHistory guest_id] |})
        | None =>
            (Ok (JError "Error al procesar la solicitud", 500),
             {| apartments_data := apartments_data w;
                chat_history := chat_history w;
                clock := S (clock w);
                effects := effects w ++ [EvResponder system messages None] |})
        end
    | _ => (Raise AttributeError, w)
    end.
Proof.
  unfold_chat.
  destruct (chat_history w !! history_file guest_id) as [[h|i]|]; simpl; try done.
  - destruct (responder ext _ _); simpl; [|done].
    by rewrite <-!app_assoc.
  - destruct (responder ext _ _); simpl; [|done].
    by rewrite <-!app_assoc.
Qed.

(** [chat] once its two required fields are present. *)
Lemma chat_run (ext : Externals) (data : ChatRequest) (guest_id message : string)
    (w : World) :
  req_guest_id data = Some guest_id → guest_id ≠ "" →
  req_message data = Some message → message ≠ "" →
  chat ext data w
  = match chat_resolve_apartment ext guest_id (req_apartment_id data) w with
    | (Ok (inl response), w1) => (Ok response, w1)
    | (Ok (inr apartment_id), w1) =>
        match (load_apartment_info ext apartment_id w1).1 with
        | Ok (Some apartment_info) =>
            chat_generate_response ext guest_id apartment_id message apartment_info w1
        | _ =>
            (Ok (JError ("No se encontró información para el apartamento "
                         +:+ apartment_id), 404), w1)
        end
    | (Raise e, w1) => (Raise e, w1)
    end.
Proof.
  intros Hg Hg' Hm Hm'. unfold chat. rewrite Hg, Hm.
  rewrite !truthy_Some by done. simpl.
  unfold mbind at 1. unfold M_bind at 1.
  destruct (chat_resolve_apartment _ _ _ _) as [[[r|a]|e] w1]; try done.
  unfold load_apartment_info. unfold_monad. simpl.
  by destruct (apartments_data w1 !! a).
Qed.

(** A request that lacks one of the two fields is answered 400 at once. *)
Lemma chat_missing_field (ext : Externals) (data : ChatRequest) (w : World) :
  PyStr.truthy (req_guest_id data) = false ∨ PyStr.truthy (req_message data) = false →
  chat ext data w = (Ok (JError "guest_id y message son requeridos", 400), w).
Proof.
  intros H. unfold chat.
  destruct H as [-> | ->]; simpl; [done|].
  by rewrite orb_true_r.
Qed.

(** C2: after a successful [chat], the guest's history on file is the
    history [H] that was on file before, followed by one [user] entry
    with the sent message and then one [assistant] entry with the reply;
    the entries of [H] keep their place and content. *)
Theorem chat_success_appends_guest_then_assistant (ext : Externals)
    (data : ChatRequest) (w w' : World) (guest_id message : string)
    (H : list ChatMessage) (reply apartment_id guest_id' : string) :
  req_guest_id data = Some guest_id →
  req_message data = Some message →
  (get_chat_history guest_id w).1 = Ok (HistoryDoc H) →
  chat ext data w = (Ok (JChat reply apartment_id guest_id', 200), w') →
  ∃ t1 t2,
    (get_chat_history guest_id w').1
    = Ok (HistoryDoc
            (H ++ [ {| msg_role := "user"; msg_content := message;
                       msg_timestamp := t1 |};
                    {| msg_role := "assistant"; msg_content := reply;
                       msg_timestamp := t2 |} ])).
Proof.
  intros Hg Hm HH Hchat.
  destruct (PyStr.truthy (req_guest_id data)) eqn:Tg;
    [|by rewrite chat_missing_field in Hchat by auto].
  destruct (PyStr.truthy (req_message data)) eqn:Tm;
    [|by rewrite chat_missing_field in Hchat by auto].
  rewrite Hg in Tg. rewrite Hm in Tm.
  apply truthy_inv in Tg as (? & [= <-] & Hg').
  apply truthy_inv in Tm as (? & [= <-] & Hm').
  rewrite (chat_run ext data guest_id message w) in Hchat by done.
  assert (Hstep : ∀ a info w1,
    (get_chat_history guest_id w1).1 = Ok (HistoryDoc H) →
    chat_generate_response ext guest_id a message info w1
      = (Ok (JChat reply apartment_id guest_id', 200), w') →
    ∃ t1 t2, (get_chat_history guest_id w').1
      = Ok (HistoryDoc
              (H ++ [ {| msg_role := "user"; msg_content := message;
                         msg_timestamp := t1 |};
                      {| msg_role := "assistant"; msg_content := reply;
                         msg_timestamp := t2 |} ]))).
  { intros a info w1 H1 Hrun.
    rewrite chat_generate_response_run, H1 in Hrun. simpl in Hrun.
    destruct (responder ext _ _) as [reply'|]; [|discriminate Hrun].
    injection Hrun as <- <- <- <-.
    eexists _, _. unfold get_chat_history. unfold_monad. simpl.
    by rewrite lookup_insert_eq. }
  destruct (PyStr.truthy (req_apartment_id data)) eqn:Ta.
  - apply truthy_inv in Ta as (a & Ha & Ha'). rewrite Ha in Hchat.
    rewrite chat_resolve_apartment_supplied in Hchat by done.
    destruct (load_apartment_info _ _ _).1 as [[info|]|] eqn:Hl;
      try discriminate Hchat.
    eapply Hstep; [|exact Hchat].
    rewrite <-HH. unfold get_chat_history. unfold_monad. simpl.
    by rewrite lookup_insert_ne by (symmetry; apply history_file_ne_guest_file).
  - rewrite chat_resolve_apartment_missing in Hchat by done.
    destruct (chat_history w !! guest_file guest_id) as [[[|m h]|i]|];
      try discriminate Hchat.
    destruct (load_apartment_info _ _ _).1 as [[info|]|] eqn:Hl;
      try discriminate Hchat.
    eapply Hstep; [exact HH|exact Hchat].
Qed.

(** The last block of [chat] when its call to the hosted model failed. *)
Lemma chat_generate_response_failure (ext : Externals)
    (guest_id apartment_id message : string) (apartment_info : ApartmentInfo)
    (w w' : World) (r : Result Response) (new : list Event)
    (system : string) (messages : list (string * string)) :
  chat_generate_response ext guest_id apartment_id message apartment_info w = (r, w') →
  new_effects w w' new →
  EvResponder system messages None ∈ new →
  r = Ok (JError "Error al procesar la solicitud", 500)
  ∧ chat_history w' = chat_history w
  ∧ new = [EvResponder system messages None].
Proof.
  unfold new_effects. intros Hrun Hnew Hin.
  rewrite chat_generate_response_run in Hrun.
  destruct (get_chat_history guest_id w).1 as [[h|i]|e]; simpl in Hrun.
  - destruct (responder ext _ _) as [reply|].
    + injection Hrun as <- <-. simpl in Hnew.
      apply app_inv_head in Hnew. subst new.
      apply list_elem_of_In in Hin. simpl in Hin.
      destruct Hin as [Hin|[Hin|[]]]; discriminate Hin.
    + injection Hrun as <- <-. simpl in Hnew.
      apply app_inv_head in Hnew. subst new.
      apply list_elem_of_singleton in Hin. by rewrite Hin.
  - injection Hrun as <- <-.
    rewrite <-(app_nil_r (effects w)) in Hnew at 1.
    apply app_inv_head in Hnew. subst new. by apply not_elem_of_nil in Hin.
  - injection Hrun as <- <-.
    rewrite <-(app_nil_r (effects w)) in Hnew at 1.
    apply app_inv_head in Hnew. subst new. by apply not_elem_of_nil in Hin.
Qed.

(** The last block of [chat] only adds to the log. *)
Lemma chat_generate_response_effects (ext : Externals)
    (guest_id apartment_id message : string) (apartment_info : ApartmentInfo)
    (w : World) :
  ∃ new,
    new_effects w
      (chat_generate_response ext guest_id apartment_id message apartment_info w).2 new.
Proof.
  unfold new_effects. rewrite chat_generate_response_run.
  destruct (get_chat_history guest_id w).1 as [[h|i]|e]; simpl.
  - destruct (responder ext _ _); simpl; by eexists.
  - exists []. by rewrite app_nil_r.
  - exists []. by rewrite app_nil_r.
Qed.

(** Every run of [chat] in which the hosted model was called and failed:
    the response is the generic 500, and apart from the failed call the
    only effect is the link write that preceded it when an apartment id
    was supplied. *)
Lemma chat_responder_failure_inv (ext : Externals) (data : ChatRequest)
    (w w' : World) (r : Result Response) (new : list Event)
    (system : string) (messages : list (string * string)) :
  chat ext data w = (r, w') →
  new_effects w w' new →
  EvResponder system messages None ∈ new →
  r = Ok (JError "Error al procesar la solicitud", 500)
  ∧ ∃ guest_id,
      req_guest_id data = Some guest_id
      ∧ ((PyStr.truthy (req_apartment_id data) = false
          ∧ chat_history w' = chat_history w
          ∧ new = [EvResponder system messages None])
         ∨ (∃ apartment_id,
              req_apartment_id data = Some apartment_id
              ∧ apartment_id ≠ ""
              ∧ chat_history w'
                = <[guest_file guest_id :=
                      InfoDoc {| info_guest_id := guest_id;
                                 info_apartment_id := apartment_id;
                                 info_created_at := isoformat_at ext (clock w) |}]>
                    (chat_history w)
              ∧ new = [EvSaveGuestInfo guest_id apartment_id;
                       EvResponder system messages None])).
Proof.
  intros Hchat Hnew Hin.
  assert (Hsame : ∀ w1, (r, w') = (r, w1) → effects w1 = effects w → False).
  { intros w1 [= <-] E. unfold new_effects in Hnew. rewrite E in Hnew.
    rewrite <-(app_nil_r (effects w)) in Hnew at 1.
    apply app_inv_head in Hnew. subst new. by apply not_elem_of_nil in Hin. }
  destruct (PyStr.truthy (req_guest_id data)) eqn:Tg; cycle 1.
  { rewrite chat_missing_field in Hchat by auto.
    injection Hchat as <- <-. by destruct (Hsame w). }
  destruct (PyStr.truthy (req_message data)) eqn:Tm; cycle 1.
  { rewrite chat_missing_field in Hchat by auto.
    injection Hchat as <- <-. by destruct (Hsame w). }
  apply truthy_inv in Tg as (guest_id & Hg & Hg').
  apply truthy_inv in Tm as (message & Hm & Hm').
  rewrite (chat_run ext data guest_id message w) in Hchat by done.
  destruct (PyStr.truthy (req_apartment_id data)) eqn:Ta.
  - apply truthy_inv in Ta as (a & Ha & Ha'). rewrite Ha in Hchat.
    rewrite chat_resolve_apartment_supplied in Hchat by done.
    set (w1 := {| apartments_data := apartments_data w |}) in Hchat.
    assert (Hpre : new_effects w w1 [EvSaveGuestInfo guest_id a]) by done.
    assert (Hearly : (r, w') = (r, w1) → False).
    { intros [= <-]. unfold new_effects in *. rewrite Hpre in Hnew.
      apply app_inv_head in Hnew. subst new.
      apply list_elem_of_singleton in Hin. discriminate Hin. }
    destruct (load_apartment_info ext a w1).1 as [[info|]|e];
      [|injection Hchat as <- <-; by destruct Hearly..].
    destruct (chat_generate_response_effects ext guest_id a message info w1)
      as [new1 Hnew1].
    rewrite Hchat in Hnew1. simpl in Hnew1.
    assert (new = EvSaveGuestInfo guest_id a :: new1) as ->.
    { unfold new_effects in *. rewrite Hnew1, Hpre, <-app_assoc in Hnew.
      by apply app_inv_head in Hnew. }
    apply elem_of_cons in Hin as [Hin|Hin]; [discriminate Hin|].
    destruct (chat_generate_response_failure _ _ _ _ _ _ _ _ _ _ _ Hchat Hnew1 Hin)
      as (-> & Hh & ->).
    split; [done|]. exists guest_id. split; [done|]. right.
    exists a. by rewrite Hh.
  - rewrite chat_resolve_apartment_missing in Hchat by done.
    destruct (chat_history w !! guest_file guest_id) as [[[|m h]|i]|];
      try (injection Hchat as <- <-; by destruct (Hsame w)).
    destruct (load_apartment_info ext _ w).1 as [[info|]|e];
      [|injection Hchat as <- <-; by destruct (Hsame w)..].
    destruct (chat_generate_response_failure _ _ _ _ _ _ _ _ _ _ _ Hchat Hnew Hin)
      as (-> & Hh & ->).
    split; [done|]. exists guest_id. split; [done|]. by left.
Qed.

(** C1, as stated, fails: guest [ana] has two entries on file, her
    message [wifi?] reaches the hosted model, the call fails, and the
    history on file afterwards is the old one, without her message. *)
Lemma chat_failure_drops_guest_message :
  let run := chat (sample_externals None)
               (sample_request (Some "ana") None (Some "wifi?")) sample_world in
  run.1 = Ok (JError "Error al procesar la solicitud", 500)
  ∧ (∃ system messages,
       ("user", "wifi?") ∈ messages
       ∧ new_effects sample_world run.2 [EvResponder system messages None])
  ∧ (get_chat_history "ana" run.2).1
    = Ok (HistoryDoc [ {| msg_role := "user"; msg_content := "hola";
                          msg_timestamp := "2024-04-30T09:00:00" |};
                       {| msg_role := "assistant"; msg_content := "buenos días";
                          msg_timestamp := "2024-04-30T09:00:02" |} ]).
Proof.
  split_and!.
  - vm_compute. reflexivity.
  - eexists _, _. split; [|vm_compute; reflexivity].
    do 2 apply list_elem_of_further. apply list_elem_of_here.
  - vm_compute. reflexivity.
Qed.

(** C1, amended: when the call to the hosted model fails, [chat] answers
    the generic 500 and the guest's history on file is what it was
    before the call: neither the guest's new message nor an assistant
    entry is written. *)
Theorem chat_responder_failure_keeps_history (ext : Externals) (data : ChatRequest)
    (w w' : World) (r : Result Response) (guest_id : string) (new : list Event)
    (system : string) (messages : list (string * string)) :
  req_guest_id data = Some guest_id →
  chat ext data w = (r, w') →
  new_effects w w' new →
  EvResponder system messages None ∈ new →
  r = Ok (JError "Error al procesar la solicitud", 500)
  ∧ (get_chat_history guest_id w').1 = (get_chat_history guest_id w).1.
Proof.
  intros Hg Hchat Hnew Hin.
  destruct (chat_responder_failure_inv _ _ _ _ _ _ _ _ Hchat Hnew Hin)
    as (-> & g & Hg2 & Hcases).
  split; [done|]. assert (g = guest_id) as -> by congruence.
  unfold get_chat_history. unfold_monad. simpl.
  destruct Hcases as [(_ & -> & _)|(a & _ & _ & -> & _)]; [done|].
  by rewrite lookup_insert_ne by (symmetry; apply history_file_ne_guest_file).
Qed.

(** C9: when [chat] is given an apartment id and the call to the hosted
    model then fails, the guest's link on file is the supplied apartment
    id (written before the call, as the log shows, and not undone), the
    guest's history on file is unchanged, and the answer is the generic
    500. *)
Theorem chat_responder_failure_keeps_new_link (ext : Externals) (data : ChatRequest)
    (w w' : World) (r : Result Response) (guest_id apartment_id : string)
    (new : list Event) (system : string) (messages : list (string * string)) :
  req_guest_id data = Some guest_id →
  req_apartment_id data = Some apartment_id →
  apartment_id ≠ "" →
  chat ext data w = (r, w') →
  new_effects w w' new →
  EvResponder system messages None ∈ new →
  (∃ created_at,
     (load_guest_info guest_id w').1
     = Ok (Some (InfoDoc {| info_guest_id := guest_id;
                            info_apartment_id := apartment_id;
                            info_created_at := created_at |})))
  ∧ new = [EvSaveGuestInfo guest_id apartment_id; EvResponder system messages None]
  ∧ (get_chat_history guest_id w').1 = (get_chat_history guest_id w).1
  ∧ r = Ok (JError "Error al procesar la solicitud", 500).
Proof.
  intros Hg Ha Ha' Hchat Hnew Hin.
  destruct (chat_responder_failure_inv _ _ _ _ _ _ _ _ Hchat Hnew Hin)
    as (-> & g & Hg2 & Hcases).
  assert (g = guest_id) as -> by congruence.
  destruct Hcases as [(Ta & _)|(a & Ha2 & _ & Hh & ->)].
  { by rewrite Ha, truthy_Some in Ta. }
  assert (a = apartment_id) as -> by congruence.
  unfold load_guest_info, get_chat_history. unfold_monad. simpl. rewrite Hh.
  split_and!; try done.
  - eexists. by rewrite lookup_insert_eq.
  - by rewrite lookup_insert_ne by (symmetry; apply history_file_ne_guest_file).
Qed.

(** X26: for a guest id whose two files are entries of the
    [chat_history] folder: a guest with no link on file who sends no
    apartment id is answered 400 with the store and the log untouched (so
    the hosted model is not called), and the error is the
    missing-apartment one once guest id and message are present; a
    supplied apartment id is written as the guest's link before anything
    else happens and is the link on file when [chat] ends. *)
Theorem chat_apartment_resolution (ext : Externals) (data : ChatRequest)
    (w : World) (guest_id : string) :
  req_guest_id data = Some guest_id →
  guest_id_names_files guest_id = true →
  (PyStr.truthy (req_apartment_id data) = false →
   (load_guest_info guest_id w).1 = Ok None →
   ∃ error,
     chat ext data w = (Ok (JError error, 400), w)
     ∧ (guest_id ≠ "" → PyStr.truthy (req_message data) = true →
        error = "apartment_id es requerido para nuevos huéspedes"))
  ∧ (∀ apartment_id,
       req_apartment_id data = Some apartment_id → apartment_id ≠ "" →
       guest_id ≠ "" → PyStr.truthy (req_message data) = true →
       ∃ created_at rest,
         new_effects w (chat ext data w).2
           (EvSaveGuestInfo guest_id apartment_id :: rest)
         ∧ (load_guest_info guest_id (chat ext data w).2).1
           = Ok (Some (InfoDoc {| info_guest_id := guest_id;
                                  info_apartment_id := apartment_id;
                                  info_created_at := created_at |}))).
Proof.
  intros Hg _. split.
  - intros Ta Hlink.
    destruct (decide (guest_id ≠ "" ∧ PyStr.truthy (req_message data) = true))
      as [[Hg' Tm]|Hno].
    + apply truthy_inv in Tm as (message & Hm & Hm').
      rewrite (chat_run ext data guest_id message w) by done.
      rewrite chat_resolve_apartment_missing by done.
      unfold load_guest_info in Hlink. unfold_monad. simpl in Hlink.
      injection Hlink as ->. by eexists.
    + eexists. split; [|intros; by destruct Hno].
      apply chat_missing_field. rewrite Hg.
      destruct guest_id; [by left|].
      destruct (PyStr.truthy (req_message data)); [|by right].
      by destruct Hno.
  - intros a Ha Ha' Hg' Tm.
    apply truthy_inv in Tm as (message & Hm & Hm').
    rewrite (chat_run ext data guest_id message w) by done.
    rewrite Ha, chat_resolve_apartment_supplied by done.
    set (w1 := {| apartments_data := apartments_data w |}).
    exists (isoformat_at ext (clock w)).
    set (link := InfoDoc {| info_guest_id := guest_id; info_apartment_id := a;
                            info_created_at := isoformat_at ext (clock w) |}).
    assert (Hw1 : chat_history w1 !! guest_file guest_id = Some link)
      by apply lookup_insert_eq.
    enough (∀ r w2,
              effects w2 = effects w1 ++ r →
              chat_history w2 !! guest_file guest_id = Some link →
              ∃ rest, new_effects w w2 (EvSaveGuestInfo guest_id a :: rest)
                      ∧ (load_guest_info guest_id w2).1 = Ok (Some link)) as Hend.
    { destruct (load_apartment_info ext a w1).1 as [[info|]|e];
        [|apply (Hend []); [by rewrite app_nil_r|done]..].
      rewrite chat_generate_response_run.
      destruct (get_chat_history guest_id w1).1 as [[h|i]|e];
        [|apply (Hend []); [by rewrite app_nil_r|done]..].
      cbv zeta. destruct (responder ext _ _) as [reply|].
      - eapply Hend; [reflexivity|]. cbn [snd chat_history].
        by rewrite lookup_insert_ne by apply history_file_ne_guest_file.
      - eapply Hend; [reflexivity|done]. }
    intros r w2 He Hl. exists r. split.
    + unfold new_effects. rewrite He. simpl. by rewrite <-app_assoc.
    + unfold load_guest_info. unfold_monad. simpl. by rewrite Hl.
Qed.

(** ** Strings *)

Section StringFacts.
Implicit Types s t u : string.

Lemma append_cons c s t : String c s +:+ t = String c (s +:+ t).
Proof. reflexivity. Qed.

Lemma append_nil_l s : "" +:+ s = s.
Proof. reflexivity. Qed.

Lemma append_nil_r s : s +:+ "" = s.
Proof. induction s as [|c s IH]; [done|]. by rewrite append_cons, IH. Qed.

Lemma append_assoc s t u : (s +:+ t) +:+ u = s +:+ t +:+ u.
Proof. induction s as [|c s IH]; [done|]. by rewrite !append_cons, IH. Qed.

Lemma append_length s t : String.length (s +:+ t) = String.length s + String.length t.
Proof. induction s as [|c s IH]; [done|]. rewrite append_cons. simpl. by rewrite IH. Qed.

Lemma drop_append s t : PyStr.drop (String.length s) (s +:+ t) = t.
Proof. induction s as [|c s IH]; [by destruct t|]. by rewrite append_cons. Qed.

Lemma drop_suffix n s : ∃ p, s = p +:+ PyStr.drop n s.
Proof.
  revert s. induction n as [|n IH]; intros s.
  - by exists "".
  - destruct s as [|c s]; [by exists ""|].
    destruct (IH s) as [p Hp]. exists (String c p). rewrite append_cons. simpl.
    by rewrite <-Hp.
Qed.

(** [endswith] is the suffix relation. *)
Lemma endswith_spec s suffix :
  PyStr.endswith s suffix = true ↔ ∃ p, s = p +:+ suffix.
Proof.
  unfold PyStr.endswith. rewrite andb_true_iff, !bool_decide_eq_true. split.
  - intros [_ Hd]. rewrite <-Hd. apply drop_suffix.
  - intros [p ->]. rewrite append_length. split; [lia|].
    replace (String.length p + String.length suffix - String.length suffix)
      with (String.length p) by lia.
    apply drop_append.
Qed.

Lemma contains_char_append_r c s t :
  PyStr.contains_char c t = true → PyStr.contains_char c (s +:+ t) = true.
Proof.
  intros H. induction s as [|d s IH]; [done|].
  rewrite append_cons. simpl. by case_decide.
Qed.

Lemma rsplit1_no_sep c t :
  PyStr.contains_char c t = false → PyStr.rsplit1 c t = [t].
Proof.
  induction t as [|d t IH]; simpl; [done|].
  case_decide; [done|]. intros Hc. by rewrite IH.
Qed.

(** Splitting at the last separator: what follows it has none. *)
Lemma rsplit1_append c s t :
  PyStr.contains_char c t = false →
  PyStr.rsplit1 c (s +:+ String c t) = [s; t].
Proof.
  intros H. induction s as [|d s IH].
  - rewrite append_nil_l. simpl. rewrite rsplit1_no_sep by done. by case_decide.
  - rewrite append_cons. simpl. by rewrite IH.
Qed.

End StringFacts.

(** ** The knowledge loader *)

(** Whatever the loader accepts, [allowed_file] accepts. *)
Lemma loader_accepts_allowed (filename : string) :
  loader_accepts filename = true → allowed_file filename = true.
Proof.
  unfold loader_accepts. rewrite !orb_true_iff, !endswith_spec.
  intros [[[p ->]|[p ->]]|[p ->]]; unfold allowed_file.
  - change ".pdf" with (String "." "pdf").
    rewrite contains_char_append_r, rsplit1_append by done. done.
  - change ".docx" with (String "." "docx").
    rewrite contains_char_append_r, rsplit1_append by done. done.
  - change ".doc" with (String "." "doc").
    rewrite contains_char_append_r, rsplit1_append by done. done.
Qed.

Section Loader.
Context (ext : Externals).

Lemma load_document_skips (info : ApartmentInfo) (entry : string * string) :
  loader_accepts entry.1 = false → load_document ext info entry = info.
Proof.
  destruct entry as [f d]. unfold loader_accepts, load_document. simpl.
  by destruct (PyStr.endswith f ".pdf"), (PyStr.endswith f ".docx"),
    (PyStr.endswith f ".doc").
Qed.

Lemma load_document_adds (info : ApartmentInfo) (entry : string * string) :
  loader_accepts entry.1 = true →
  load_document ext info entry
  = {| apt_apartment_id := apt_apartment_id info;
       apt_documents := apt_documents info ++ [extracted ext entry];
       apt_full_text :=
         apt_full_text info +:+ section_marker entry.1 +:+ (extracted ext entry).2 |}.
Proof.
  destruct entry as [f d]. unfold loader_accepts, load_document, extracted. simpl.
  by destruct (PyStr.endswith f ".pdf"), (PyStr.endswith f ".docx"),
    (PyStr.endswith f ".doc").
Qed.

(** The documents of the result: one per accepted file, in listing
    order, each with the text of its extractor; other files leave no
    trace. *)
Lemma load_documents_are_accepted_files (info : ApartmentInfo) (listing : Directory) :
  apt_documents (foldl (load_document ext) info listing)
  = apt_documents info
    ++ (extracted ext <$> filter (λ entry, loader_accepts entry.1 = true) listing).
Proof.
  revert info. induction listing as [|entry listing IH]; intros info.
  - simpl. by rewrite app_nil_r.
  - cbn [foldl]. rewrite IH. destruct (loader_accepts entry.1) eqn:Hacc.
    + rewrite load_document_adds by done. cbn [apt_documents].
      rewrite filter_cons_True by done. rewrite fmap_cons. by rewrite <-app_assoc.
    + rewrite load_document_skips by done.
      rewrite filter_cons_False; [done|]. by rewrite Hacc.
Qed.

Lemma load_full_text_grows (info : ApartmentInfo) (listing : Directory) :
  ∃ more, apt_full_text (foldl (load_document ext) info listing)
          = apt_full_text info +:+ more.
Proof.
  revert info. induction listing as [|entry listing IH]; intros info; simpl.
  - exists "". by rewrite append_nil_r.
  - destruct (IH (load_document ext info entry)) as [more ->].
    destruct (loader_accepts entry.1) eqn:Hacc.
    + rewrite load_document_adds by done. cbn [apt_full_text].
      exists (section_marker entry.1 +:+ (extracted ext entry).2 +:+ more).
      by rewrite !append_assoc.
    + rewrite load_document_skips by done. by eexists.
Qed.

(** Every accepted file of the directory has its marker in the full text. *)
Lemma load_full_text_has_marker (info : ApartmentInfo) (listing : Directory)
    (entry : string * string) :
  entry ∈ listing → loader_accepts entry.1 = true →
  occurs_in (section_marker entry.1)
    (apt_full_text (foldl (load_document ext) info listing)).
Proof.
  intros Hin Hacc. revert info.
  induction listing as [|other listing IH]; intros info.
  { by apply not_elem_of_nil in Hin. }
  cbn [foldl]. apply elem_of_cons in Hin as [<-|Hin]; [|by apply IH].
  destruct (load_full_text_grows (load_document ext info entry) listing)
    as [more ->].
  rewrite load_document_adds by done. cbn [apt_full_text].
  exists (apt_full_text info), ((extracted ext entry).2 +:+ more).
  by rewrite !append_assoc.
Qed.

(** The same holds in whatever order [os.listdir] gives the files. *)
Lemma load_full_text_has_marker_any_order (info : ApartmentInfo)
    (listing listing' : Directory) (entry : string * string) :
  listing ≡ₚ listing' →
  entry ∈ listing → loader_accepts entry.1 = true →
  occurs_in (section_marker entry.1)
    (apt_full_text (foldl (load_document ext) info listing'))
  ∧ occurs_in entry.1 (section_marker entry.1).
Proof.
  intros Hp Hin Hacc. split.
  - apply load_full_text_has_marker; [|done]. by rewrite <-Hp.
  - unfold section_marker, occurs_in.
    exists (String LF (String LF "=== ")), (" ===" +:+ String LF ""). done.
Qed.

End Loader.




(** C6, at a file the upload path accepts: [Guide.PDF] passes
    [allowed_file] and is listed by [list_documents], yet the loader
    skips it, so the apartment's knowledge has no document and no text. *)
Theorem loader_skips_uppercase_extension (ext : Externals)
    (apartment_id data : string) (w : World) :
  apartments_data w !! apartment_id = Some [("Guide.PDF", data)] →
  allowed_file "Guide.PDF" = true
  ∧ (list_documents apartment_id w).1
    = Ok (JDocuments apartment_id ["Guide.PDF"], 200)
  ∧ (load_apartment_info ext apartment_id w).1
    = Ok (Some {| apt_apartment_id := apartment_id; apt_documents := [];
                  apt_full_text := "" |}).
Proof.
  intros Hdir. split_and!; [done|..].
  - unfold list_documents. unfold_monad. simpl. by rewrite Hdir.
  - unfold load_apartment_info. unfold_monad. simpl. by rewrite Hdir.
Qed.

Lemma loader_skips_uppercase_extension_witness :
  let w := (upload_document (sample_externals None) "apt-7"
              (Some {| file_filename := "Guide.PDF"; file_data := "%PDF-1.7" |})
              sample_world).2 in
  apartments_data w !! "apt-7" = Some [("Guide.PDF", "%PDF-1.7")]
  ∧ (load_apartment_info (sample_externals None) "apt-7" w).1
    = Ok (Some {| apt_apartment_id := "apt-7"; apt_documents := [];
                  apt_full_text := "" |}).
Proof.
  intros w.
  assert (Hdir : apartments_data w !! "apt-7" = Some [("Guide.PDF", "%PDF-1.7")]).
  { vm_compute. reflexivity. }
  split; [exact Hdir|].
  exact (proj2 (proj2 (loader_skips_uppercase_extension (sample_externals None)
                         "apt-7" "%PDF-1.7" w Hdir))).
Defined.

(** ** The phone registry *)

(** C10, on every input: [register_guest] raises [NameError] for
    [datetime], which the module never imports, before the registry is
    touched; so [get_apartment_id] answers afterwards what it answered
    before, and [None] for a phone number that was not registered. *)
Theorem register_guest_raises_name_error (ext : Externals)
    (s : WhatsApp.RegistryState) (phone_number apartment_id : string)
    (guest_name : option string) :
  WhatsApp.register_guest ext phone_number apartment_id guest_name s
    = (Raise (NameError "datetime"), s)
  ∧ (WhatsApp.get_apartment_id phone_number
       (WhatsApp.register_guest ext phone_number apartment_id guest_name s).2).1
    = (WhatsApp.get_apartment_id phone_number s).1.
Proof. split; reflexivity. Qed.

Example register_guest_main_example :
  let s := WhatsApp.init "guest_phone_registry.json" ∅ 0 in
  let run := WhatsApp.register_guest (sample_externals None)
               "34612345678" "apt-barcelona-001" (Some "Juan Pérez") s in
  run.1 = Raise (NameError "datetime")
  ∧ (WhatsApp.get_apartment_id "34612345678" run.2).1 = Ok None.
Proof. split; vm_compute; reflexivity. Qed.

(** ** Instances of the chat theorems *)

Lemma chat_success_appends_guest_then_assistant_witness :
  ∃ t1 t2,
    (get_chat_history "ana"
       (chat (sample_externals (Some "La clave es 1234"))
          (sample_request (Some "ana") None (Some "wifi?")) sample_world).2).1
    = Ok (HistoryDoc
            ([ {| msg_role := "user"; msg_content := "hola";
                  msg_timestamp := "2024-04-30T09:00:00" |};
               {| msg_role := "assistant"; msg_content := "buenos días";
                  msg_timestamp := "2024-04-30T09:00:02" |} ]
             ++ [ {| msg_role := "user"; msg_content := "wifi?";
                     msg_timestamp := t1 |};
                  {| msg_role := "assistant"; msg_content := "La clave es 1234";
                     msg_timestamp := t2 |} ])).
Proof.
  eapply (chat_success_appends_guest_then_assistant
            (sample_externals (Some "La clave es 1234"))
            (sample_request (Some "ana") None (Some "wifi?")) sample_world _
            "ana" "wifi?" _ "La clave es 1234" "apt-1" "ana").
  - reflexivity.
  - reflexivity.
  - vm_compute. reflexivity.
  - apply injective_projections; [vm_compute; reflexivity|reflexivity].
Defined.

Lemma chat_responder_failure_keeps_history_witness :
  let run := chat (sample_externals None)
               (sample_request (Some "ana") None (Some "wifi?")) sample_world in
  run.1 = Ok (JError "Error al procesar la solicitud", 500)
  ∧ (get_chat_history "ana" run.2).1 = (get_chat_history "ana" sample_world).1.
Proof.
  intros run.
  eapply (chat_responder_failure_keeps_history (sample_externals None)
            (sample_request (Some "ana") None (Some "wifi?")) sample_world run.2
            run.1 "ana").
  - reflexivity.
  - apply surjective_pairing.
  - unfold new_effects. vm_compute. reflexivity.
  - apply list_elem_of_here.
Defined.

Lemma chat_responder_failure_keeps_new_link_witness :
  let run := chat (sample_externals None)
               (sample_request (Some "ana") (Some "apt-1") (Some "wifi?"))
               (with_chat_history (delete (guest_file "ana")) sample_world) in
  (∃ created_at,
     (load_guest_info "ana" run.2).1
     = Ok (Some (InfoDoc {| info_guest_id := "ana"; info_apartment_id := "apt-1";
                            info_created_at := created_at |})))
  ∧ (get_chat_history "ana" run.2).1 = (get_chat_history "ana" sample_world).1.
Proof.
  intros run.
  edestruct (chat_responder_failure_keeps_new_link (sample_externals None)
            (sample_request (Some "ana") (Some "apt-1") (Some "wifi?"))
            (with_chat_history (delete (guest_file "ana")) sample_world) run.2
            run.1 "ana" "apt-1") as (Hlink & _ & Hhist & _).
  - reflexivity.
  - reflexivity.
  - discriminate.
  - apply surjective_pairing.
  - unfold new_effects. vm_compute. reflexivity.
  - apply list_elem_of_further, list_elem_of_here.
  - split; [exact Hlink|]. rewrite Hhist. vm_compute. reflexivity.
Defined.

Lemma chat_apartment_resolution_witness :
  (∃ error,
     chat (sample_externals None) (sample_request (Some "luis") None (Some "hola"))
       sample_world
     = (Ok (JError error, 400), sample_world)
     ∧ error = "apartment_id es requerido para nuevos huéspedes")
  ∧ ∃ created_at rest,
      new_effects sample_world
        (chat (sample_externals None)
           (sample_request (Some "luis") (Some "apt-1") (Some "hola")) sample_world).2
        (EvSaveGuestInfo "luis" "apt-1" :: rest)
      ∧ (load_guest_info "luis"
           (chat (sample_externals None)
              (sample_request (Some "luis") (Some "apt-1") (Some "hola"))
              sample_world).2).1
        = Ok (Some (InfoDoc {| info_guest_id := "luis"; info_apartment_id := "apt-1";
                               info_created_at := created_at |})).
Proof.
  split.
  - destruct (proj1 (chat_apartment_resolution (sample_externals None)
                       (sample_request (Some "luis") None (Some "hola"))
                       sample_world "luis" eq_refl eq_refl))
      as (error & Hrun & Herr).
    + reflexivity.
    + vm_compute. reflexivity.
    + exists error. split; [exact Hrun|]. by apply Herr.
  - apply (proj2 (chat_apartment_resolution (sample_externals None)
                    (sample_request (Some "luis") (Some "apt-1") (Some "hola"))
                    sample_world "luis" eq_refl eq_refl) "apt-1"); done.
Defined.

(** * Further properties of the backend *)

(** ** All the ways a chat turn can go *)

Lemma chat_resolve_apartment_keeps_directories (ext : Externals) (guest_id : string)
    (apartment_id : option string) (w : World) :
  apartments_data (chat_resolve_apartment ext guest_id apartment_id w).2
  = apartments_data w.
Proof.
  destruct (PyStr.truthy apartment_id) eqn:Ta.
  - apply truthy_inv in Ta as (a & -> & Ha).
    by rewrite chat_resolve_apartment_supplied.
  - by rewrite chat_resolve_apartment_missing.
Qed.

(** Splits a run [H : chat ext data w = (r, w')] whose two required
    fields are present into its outcomes, each with [r] and [w'] explicit. *)
Ltac chat_outcomes H guest_id message :=
  rewrite (chat_run _ _ guest_id message) in H by done;
  let Ta := fresh "Ta" in
  let a := fresh "a" in
  let Ha := fresh "Ha" in
  let Ha' := fresh "Ha'" in
  let Hlink := fresh "Hlink" in
  let Hdir := fresh "Hdir" in
  let Hhist := fresh "Hhist" in
  let Hr := fresh "Hr" in
  match type of H with
  | context [req_apartment_id ?d] =>
      destruct (PyStr.truthy (req_apartment_id d)) eqn:Ta
  end;
  [ apply truthy_inv in Ta as (a & Ha & Ha'); rewrite Ha in H;
    rewrite chat_resolve_apartment_supplied in H by done
  | rewrite chat_resolve_apartment_missing in H by done;
    match type of H with
    | context [chat_history ?w !! guest_file guest_id] =>
        destruct (chat_history w !! guest_file guest_id) as [[[|? ?]|?]|] eqn:Hlink
    end ];
  unfold load_apartment_info in H; unfold_monad; cbn [fst snd apartments_data] in H;
  try (match type of H with
       | context [apartments_data ?w !! ?a] =>
           destruct (apartments_data w !! a) as [?|] eqn:Hdir
       end;
       [ rewrite chat_generate_response_run in H;
         match type of H with
         | context [(get_chat_history guest_id ?w1).1] =>
             destruct (get_chat_history guest_id w1).1 as [[?|?]|?] eqn:Hhist
         end;
         cbv zeta in H;
         try match type of H with
             | context [responder ?e ?s ?m] =>
                 destruct (responder e s m) as [?|] eqn:Hr
             end
       | ]);
  injection H as <- <-.

(** X2: for a guest id whose two files are entries of the [chat_history]
    folder, [chat] never changes the apartment folders, and in the
    [chat_history] folder it can only change that guest's history file
    and link file. *)
Theorem chat_touches_only_the_guests_files (ext : Externals) (data : ChatRequest)
    (w : World) (guest_id : string) :
  req_guest_id data = Some guest_id →
  guest_id_names_files guest_id = true →
  apartments_data (chat ext data w).2 = apartments_data w
  ∧ ∀ path,
      path ≠ history_file guest_id → path ≠ guest_file guest_id →
      chat_history (chat ext data w).2 !! path = chat_history w !! path.
Proof.
  intros Hg _.
  destruct (chat ext data w) as [r w'] eqn:Hchat. cbn [snd].
  destruct (PyStr.truthy (req_guest_id data)) eqn:Tg; cycle 1.
  { rewrite chat_missing_field in Hchat by auto. by injection Hchat as <- <-. }
  destruct (PyStr.truthy (req_message data)) eqn:Tm; cycle 1.
  { rewrite chat_missing_field in Hchat by auto. by injection Hchat as <- <-. }
  rewrite Hg in Tg. apply truthy_inv in Tg as (? & [= <-] & Hg').
  apply truthy_inv in Tm as (message & Hm & Hm').
  chat_outcomes Hchat guest_id message.
  all: split; [done|]; intros path Hp1 Hp2; cbn [chat_history].
  all: rewrite ?lookup_insert_ne by done; done.
Qed.

(** The knowledge the loader builds from a listing. *)
Lemma load_apartment_info_found (ext : Externals) (apartment_id : string)
    (listing : Directory) (w : World) :
  apartments_data w !! apartment_id = Some listing →
  (load_apartment_info ext apartment_id w).1
  = Ok (Some (foldl (load_document ext)
                {| apt_apartment_id := apartment_id; apt_documents := [];
                   apt_full_text := "" |} listing)).
Proof. intros H. unfold load_apartment_info. unfold_monad. simpl. by rewrite H. Qed.

Lemma api_messages_of_snoc (history : list ChatMessage) (content timestamp : string) :
  api_messages_of
    (history ++ [{| msg_role := "user"; msg_content := content;
                    msg_timestamp := timestamp |}])
  = api_messages_of history ++ [("user", content)].
Proof. unfold api_messages_of. by rewrite filter_app, fmap_app. Qed.



(** What the last block of [chat] adds to the log. *)
Lemma chat_generate_response_summary (ext : Externals)
    (guest_id apartment_id message : string) (info : ApartmentInfo) (w : World) :
  let run := chat_generate_response ext guest_id apartment_id message info w in
  (effects run.2 = effects w ∧ run.1 = Raise AttributeError)
  ∨ ∃ history reply,
      (get_chat_history guest_id w).1 = Ok (HistoryDoc history)
      ∧ effects run.2
        = effects w
          ++ responder_events guest_id (get_concierge_system_prompt info)
               (api_messages_of history ++ [("user", message)]) reply
      ∧ run.1 = responder_result guest_id apartment_id reply.
Proof.
  cbv zeta. rewrite chat_generate_response_run.
  destruct (get_chat_history guest_id w).1 as [[h|i]|e] eqn:Hh; [|by left..].
  right. exists h. cbv zeta. rewrite api_messages_of_snoc.
  destruct (responder ext _ _) as [reply|] eqn:Hr;
    [exists (Some reply)|exists None]; done.
Qed.

(** What one run of [chat] adds to the log, with the arguments of the
    call to the hosted model. *)
Lemma chat_run_summary (ext : Externals) (data : ChatRequest) (w w' : World)
    (r : Result Response) (guest_id message : string) :
  req_guest_id data = Some guest_id → guest_id ≠ "" →
  req_message data = Some message → message ≠ "" →
  chat ext data w = (r, w') →
  ∃ link tail,
    new_effects w w' (link ++ tail)
    ∧ (link = []
       ∨ ∃ a, req_apartment_id data = Some a ∧ a ≠ ""
              ∧ link = [EvSaveGuestInfo guest_id a])
    ∧ (tail = []
       ∨ ∃ a listing history reply,
           requested_apartment data guest_id w a
           ∧ apartments_data w !! a = Some listing
           ∧ (get_chat_history guest_id w).1 = Ok (HistoryDoc history)
           ∧ tail = responder_events guest_id
                      (get_concierge_system_prompt
                         (foldl (load_document ext)
                            {| apt_apartment_id := a; apt_documents := [];
                               apt_full_text := "" |} listing))
                      (api_messages_of history ++ [("user", message)]) reply
           ∧ r = responder_result guest_id a reply).
Proof.
  intros Hg Hg' Hm Hm' Hchat. unfold new_effects.
  rewrite (chat_run ext data guest_id message w) in Hchat by done.
  destruct (chat_resolve_apartment ext guest_id (req_apartment_id data) w)
    as [res w1] eqn:Hres.
  assert (∃ link,
            effects w1 = effects w ++ link
            ∧ apartments_data w1 = apartments_data w
            ∧ (get_chat_history guest_id w1).1 = (get_chat_history guest_id w).1
            ∧ (link = []
               ∨ ∃ a, req_apartment_id data = Some a ∧ a ≠ ""
                      ∧ link = [EvSaveGuestInfo guest_id a])
            ∧ ∀ a, res = Ok (inr a) → requested_apartment data guest_id w a)
    as (link & Hlog & Hdirs & Hhist & Hlink & Hreq).
  { destruct (PyStr.truthy (req_apartment_id data)) eqn:Ta.
    - apply truthy_inv in Ta as (a & Ha & Ha'). rewrite Ha in Hres.
      rewrite chat_resolve_apartment_supplied in Hres by done.
      injection Hres as <- <-. exists [EvSaveGuestInfo guest_id a].
      split_and!; try done.
      + unfold get_chat_history. unfold_monad. cbn [fst chat_history].
        by rewrite lookup_insert_ne by (symmetry; apply history_file_ne_guest_file).
      + right. by exists a.
      + intros ? [= <-]. by left.
    - rewrite chat_resolve_apartment_missing in Hres by done.
      injection Hres as <- <-. exists []. rewrite app_nil_r.
      split_and!; try done; [by left|].
      intros a Hres. right. split; [done|].
      destruct (chat_history w !! guest_file guest_id) as [[[|? ?]|info]|];
        try discriminate Hres.
      injection Hres as <-. by exists info. }
  exists link.
  assert (Hstop : (r, w') = (r, w1) → ∃ tail,
            effects w' = effects w ++ link ++ tail
            ∧ (link = []
               ∨ ∃ a, req_apartment_id data = Some a ∧ a ≠ ""
                      ∧ link = [EvSaveGuestInfo guest_id a])
            ∧ (tail = [] ∨ ∃ a listing history reply,
                 requested_apartment data guest_id w a
                 ∧ apartments_data w !! a = Some listing
                 ∧ (get_chat_history guest_id w).1 = Ok (HistoryDoc history)
                 ∧ tail = responder_events guest_id
                            (get_concierge_system_prompt
                               (foldl (load_document ext)
                                  {| apt_apartment_id := a; apt_documents := [];
                                     apt_full_text := "" |} listing))
                            (api_messages_of history ++ [("user", message)]) reply
                 ∧ r = responder_result guest_id a reply)).
  { intros [= ->]. exists []. rewrite app_nil_r. split_and!; try done. by left. }
  destruct res as [[response|a]|e];
    [injection Hchat as <- <-; by apply Hstop| |injection Hchat as <- <-; by apply Hstop].
  destruct (apartments_data w !! a) as [listing|] eqn:Hdir; cycle 1.
  { unfold load_apartment_info in Hchat. unfold_monad. cbn [fst] in Hchat.
    rewrite Hdirs, Hdir in Hchat. injection Hchat as <- <-. by apply Hstop. }
  rewrite (load_apartment_info_found ext a listing) in Hchat by by rewrite Hdirs.
  pose proof (chat_generate_response_summary ext guest_id a message
                (foldl (load_document ext)
                   {| apt_apartment_id := a; apt_documents := [];
                      apt_full_text := "" |} listing) w1) as Hsum.
  cbv zeta in Hsum. rewrite Hchat in Hsum. cbn [fst snd] in Hsum.
  destruct Hsum as [[He _]|(history & reply & Hh & He & Hr)].
  - exists []. rewrite app_nil_r, He. split_and!; try done. by left.
  - eexists. rewrite He, Hlog, <-app_assoc. split_and!; try done.
    right. exists a, listing, history, reply. rewrite <-Hhist.
    split_and!; try done. by apply Hreq.
Qed.

(** X1: [chat] answers the required-fields 400 exactly when [guest_id] or
    [message] is absent or empty, and then changes nothing. *)
Theorem chat_required_fields_iff (ext : Externals) (data : ChatRequest) (w : World) :
  ((chat ext data w).1 = Ok (JError "guest_id y message son requeridos", 400)
   ↔ PyStr.truthy (req_guest_id data) = false
     ∨ PyStr.truthy (req_message data) = false)
  ∧ (PyStr.truthy (req_guest_id data) = false
     ∨ PyStr.truthy (req_message data) = false →
     (chat ext data w).2 = w).
Proof.
  split; [split|]; [|intros H; by rewrite chat_missing_field..].
  intros Hres.
  destruct (PyStr.truthy (req_guest_id data)) eqn:Tg; [|by left].
  destruct (PyStr.truthy (req_message data)) eqn:Tm; [|by right].
  exfalso.
  apply truthy_inv in Tg as (guest_id & Hg & Hg').
  apply truthy_inv in Tm as (message & Hm & Hm').
  destruct (chat ext data w) as [r w'] eqn:Hchat. cbn [fst] in Hres.
  revert Hres. chat_outcomes Hchat guest_id message; discriminate.
Qed.

(** A run of [chat] without its two required fields adds nothing to the log. *)
Lemma chat_effects_decomposed (ext : Externals) (data : ChatRequest) (w w' : World)
    (r : Result Response) (new : list Event) :
  chat ext data w = (r, w') →
  new_effects w w' new →
  new = []
  ∨ ∃ guest_id message link tail,
      req_guest_id data = Some guest_id ∧ req_message data = Some message
      ∧ new = link ++ tail
      ∧ (link = []
         ∨ ∃ a, req_apartment_id data = Some a ∧ a ≠ ""
                ∧ link = [EvSaveGuestInfo guest_id a])
      ∧ (tail = []
         ∨ ∃ a listing history reply,
             requested_apartment data guest_id w a
             ∧ apartments_data w !! a = Some listing
             ∧ (get_chat_history guest_id w).1 = Ok (HistoryDoc history)
             ∧ tail = responder_events guest_id
                        (get_concierge_system_prompt
                           (foldl (load_document ext)
                              {| apt_apartment_id := a; apt_documents := [];
                                 apt_full_text := "" |} listing))
                        (api_messages_of history ++ [("user", message)]) reply
             ∧ r = responder_result guest_id a reply).
Proof.
  intros Hchat Hnew.
  assert (Hnone : PyStr.truthy (req_guest_id data) = false
                  ∨ PyStr.truthy (req_message data) = false → new = []).
  { intros H. rewrite chat_missing_field in Hchat by done.
    injection Hchat as <- <-. unfold new_effects in Hnew.
    rewrite <-(app_nil_r (effects w)) in Hnew at 1.
    by apply app_inv_head in Hnew. }
  destruct (PyStr.truthy (req_guest_id data)) eqn:Tg; [|left; auto].
  destruct (PyStr.truthy (req_message data)) eqn:Tm; [|left; auto].
  apply truthy_inv in Tg as (guest_id & Hg & Hg').
  apply truthy_inv in Tm as (message & Hm & Hm').
  destruct (chat_run_summary ext data w w' r guest_id message)
    as (link & tail & Hlog & Hlink & Htail); try done.
  right. exists guest_id, message, link, tail. split_and!; try done.
  unfold new_effects in *. rewrite Hlog in Hnew. by apply app_inv_head in Hnew.
Qed.

(** The arguments of a call to the hosted model found in the log. *)
Lemma chat_responder_event_inv (ext : Externals) (data : ChatRequest)
    (w w' : World) (r : Result Response) (new : list Event)
    (system : string) (messages : list (string * string)) (reply : option string) :
  chat ext data w = (r, w') →
  new_effects w w' new →
  EvResponder system messages reply ∈ new →
  ∃ guest_id message apartment_id listing history,
    req_guest_id data = Some guest_id
    ∧ req_message data = Some message
    ∧ requested_apartment data guest_id w apartment_id
    ∧ apartments_data w !! apartment_id = Some listing
    ∧ (get_chat_history guest_id w).1 = Ok (HistoryDoc history)
    ∧ (load_apartment_info ext apartment_id w).1
      = Ok (Some (foldl (load_document ext)
                    {| apt_apartment_id := apartment_id; apt_documents := [];
                       apt_full_text := "" |} listing))
    ∧ system = get_concierge_system_prompt
                 (foldl (load_document ext)
                    {| apt_apartment_id := apartment_id; apt_documents := [];
                       apt_full_text := "" |} listing)
    ∧ messages = api_messages_of history ++ [("user", message)].
Proof.
  intros Hchat Hnew Hin.
  destruct (chat_effects_decomposed _ _ _ _ _ _ Hchat Hnew)
    as [->|(g & m & link & tail & Hg & Hm & -> & Hlink & Htail)].
  { by apply not_elem_of_nil in Hin. }
  apply elem_of_app in Hin as [Hin|Hin].
  { destruct Hlink as [->|(a & _ & _ & ->)].
    - by apply not_elem_of_nil in Hin.
    - apply list_elem_of_singleton in Hin. discriminate Hin. }
  destruct Htail as [->|(a & listing & history & rep & Hreq & Hdir & Hh & -> & _)].
  { by apply not_elem_of_nil in Hin. }
  exists g, m, a, listing, history.
  rewrite (load_apartment_info_found ext a listing w Hdir).
  unfold responder_events in Hin. apply elem_of_cons in Hin as [Hin|Hin].
  - injection Hin as -> -> ->. done.
  - destruct rep; [|by apply not_elem_of_nil in Hin].
    apply list_elem_of_singleton in Hin. discriminate Hin.
Qed.

(** X3: whenever [chat] calls the hosted model, the apartment of the call
    is the one the request names or, when it names none, the one of the
    guest's link on file; the system text is the prompt built from that
    apartment's directory; and the messages are the role and content of
    the entries of the history on file whose role is [user] or
    [assistant], in their order, the other entries being left out,
    followed by the new message with role [user] as the last one. *)
Theorem chat_responder_call_arguments (ext : Externals) (data : ChatRequest)
    (w w' : World) (r : Result Response) (new : list Event)
    (system : string) (messages : list (string * string)) (reply : option string) :
  chat ext data w = (r, w') →
  new_effects w w' new →
  EvResponder system messages reply ∈ new →
  ∃ guest_id message apartment_id listing history,
    req_guest_id data = Some guest_id
    ∧ req_message data = Some message
    ∧ requested_apartment data guest_id w apartment_id
    ∧ apartments_data w !! apartment_id = Some listing
    ∧ (get_chat_history guest_id w).1 = Ok (HistoryDoc history)
    ∧ system = get_concierge_system_prompt
                 (foldl (load_document ext)
                    {| apt_apartment_id := apartment_id; apt_documents := [];
                       apt_full_text := "" |} listing)
    ∧ messages
      = ((λ entry, (msg_role entry, msg_content entry))
           <$> filter (λ entry, msg_role entry = "user" ∨ msg_role entry = "assistant")
                 history)
        ++ [("user", message)]
    ∧ last messages = Some ("user", message).
Proof.
  intros Hchat Hnew Hin.
  destruct (chat_responder_event_inv _ _ _ _ _ _ _ _ _ Hchat Hnew Hin)
    as (g & m & a & listing & history & Hg & Hm & Hreq & Hdir & Hh & _ & Hs & Hms).
  exists g, m, a, listing, history. split_and!; try done.
  - rewrite Hms. f_equal. unfold api_messages_of. f_equal.
    apply list_filter_iff. intros entry. rewrite elem_of_cons, list_elem_of_singleton.
    done.
  - rewrite Hms. apply last_snoc.
Qed.


(** X5: one run of [chat] calls the hosted model at most once, and it
    writes a history file exactly when that call gave a reply; the file
    written is the guest's own. *)
Theorem chat_calls_responder_at_most_once (ext : Externals) (data : ChatRequest)
    (w w' : World) (r : Result Response) (new : list Event) :
  chat ext data w = (r, w') →
  new_effects w w' new →
  length (filter (λ e, is_responder_call e = true) new) ≤ 1
  ∧ ∀ g, EvSaveChatHistory g ∈ new
         ↔ req_guest_id data = Some g
           ∧ ∃ system messages text, EvResponder system messages (Some text) ∈ new.
Proof.
  intros Hchat Hnew.
  destruct (chat_effects_decomposed _ _ _ _ _ _ Hchat Hnew)
    as [->|(g & m & link & tail & Hg & Hm & -> & Hlink & Htail)].
  { split; [simpl; lia|]. intros g. split.
    - intros Hin. by apply not_elem_of_nil in Hin.
    - intros (_ & ? & ? & ? & Hin). by apply not_elem_of_nil in Hin. }
  assert (Hl : filter (λ e, is_responder_call e = true) link = []
               ∧ ∀ e, e ∈ link → ∃ a, e = EvSaveGuestInfo g a).
  { destruct Hlink as [->|(a & _ & _ & ->)]; split; try done.
    - intros e He. by apply not_elem_of_nil in He.
    - intros e He. apply list_elem_of_singleton in He. by exists a. }
  destruct Hl as [Hl1 Hl2]. rewrite filter_app, Hl1. cbn [app].
  destruct Htail as [->|(a & listing & history & rep & _ & _ & _ & -> & _)].
  { split; [simpl; lia|]. intros g'. rewrite app_nil_r. split.
    - intros Hin. apply Hl2 in Hin as [a Ha]. discriminate Ha.
    - intros (_ & ? & ? & ? & Hin). apply Hl2 in Hin as [a Ha]. discriminate Ha. }
  unfold responder_events. destruct rep as [text|].
  - split; [simpl; lia|]. intros g'. split.
    + intros Hin. apply elem_of_app in Hin as [Hin|Hin].
      { apply Hl2 in Hin as [? Ha]. discriminate Ha. }
      apply elem_of_cons in Hin as [Hin|Hin]; [discriminate Hin|].
      apply list_elem_of_singleton in Hin. injection Hin as ->.
      split; [done|]. eexists _, _, text. apply elem_of_app. right. left.
    + intros ([= ->]%(eq_trans (eq_sym Hg)) & _).
      apply elem_of_app. right. right. left.
  - split; [simpl; lia|]. intros g'. split.
    + intros Hin. apply elem_of_app in Hin as [Hin|Hin].
      { apply Hl2 in Hin as [? Ha]. discriminate Ha. }
      apply list_elem_of_singleton in Hin. discriminate Hin.
    + intros (_ & s & ms & text & Hin). apply elem_of_app in Hin as [Hin|Hin].
      { apply Hl2 in Hin as [? Ha]. discriminate Ha. }
      apply list_elem_of_singleton in Hin. discriminate Hin.
Qed.

(** ** What reaches the hosted model *)

Lemma occurs_in_append_l (x s t : string) : occurs_in x t → occurs_in x (s +:+ t).
Proof.
  intros (b & a & ->). exists (s +:+ b), a. by rewrite append_assoc.
Qed.

Lemma occurs_in_append_r (x s t : string) : occurs_in x s → occurs_in x (s +:+ t).
Proof.
  intros (b & a & ->). exists b, (a +:+ t). by rewrite !append_assoc.
Qed.

Lemma occurs_in_refl (x : string) : occurs_in x x.
Proof. exists "", "". by rewrite append_nil_r. Qed.

(** Every accepted file contributes its marker followed by its text. *)
Lemma load_full_text_has_section (ext : Externals) (info : ApartmentInfo)
    (listing : Directory) (entry : string * string) :
  entry ∈ listing → loader_accepts entry.1 = true →
  occurs_in (section_marker entry.1 +:+ (extracted ext entry).2)
    (apt_full_text (foldl (load_document ext) info listing)).
Proof.
  intros Hin Hacc. revert info.
  induction listing as [|other listing IH]; intros info.
  { by apply not_elem_of_nil in Hin. }
  cbn [foldl]. apply elem_of_cons in Hin as [<-|Hin]; [|by apply IH].
  destruct (load_full_text_grows ext (load_document ext info entry) listing)
    as [more ->].
  rewrite load_document_adds by done. cbn [apt_full_text].
  apply occurs_in_append_r, occurs_in_append_l, occurs_in_refl.
Qed.

Lemma load_keeps_apartment_id (ext : Externals) (info : ApartmentInfo)
    (listing : Directory) :
  apt_apartment_id (foldl (load_document ext) info listing) = apt_apartment_id info.
Proof.
  revert info. induction listing as [|entry listing IH]; intros info; [done|].
  cbn [foldl]. rewrite IH. destruct (loader_accepts entry.1) eqn:Hacc.
  - by rewrite load_document_adds.
  - by rewrite load_document_skips.
Qed.

(** X4: the system text of every call to the hosted model names the
    apartment the request is for (the one the request names or, when it
    names none, the one of the guest's link on file) and contains, for
    each file of that apartment's directory that the loader accepts, the
    file's marker followed by its extracted text. *)
Theorem chat_prompt_carries_accepted_documents (ext : Externals) (data : ChatRequest)
    (w w' : World) (r : Result Response) (new : list Event)
    (system : string) (messages : list (string * string)) (reply : option string) :
  chat ext data w = (r, w') →
  new_effects w w' new →
  EvResponder system messages reply ∈ new →
  ∃ guest_id apartment_id listing,
    req_guest_id data = Some guest_id
    ∧ requested_apartment data guest_id w apartment_id
    ∧ apartments_data w !! apartment_id = Some listing
    ∧ occurs_in ("para el apartamento " +:+ apartment_id +:+ " en Barcelona") system
    ∧ ∀ entry, entry ∈ listing → loader_accepts entry.1 = true →
        occurs_in (section_marker entry.1 +:+ (extracted ext entry).2) system.
Proof.
  intros Hchat Hnew Hin.
  destruct (chat_responder_event_inv _ _ _ _ _ _ _ _ _ Hchat Hnew Hin)
    as (g & m & a & listing & history & Hg & _ & Hreq & Hdir & _ & _ & -> & _).
  exists g, a, listing. split_and!; try done; unfold get_concierge_system_prompt.
  - rewrite load_keeps_apartment_id. cbn [apt_apartment_id].
    exists "Eres el conciergue virtual de MyRentalHost ". eexists.
    rewrite !append_assoc. reflexivity.
  - intros entry He Hacc.
    do 3 apply occurs_in_append_l. apply occurs_in_append_r.
    by apply load_full_text_has_section.
Qed.

(** ** Sequences of requests *)

(** The store after a successful [chat]. *)
Lemma chat_success_inv (ext : Externals) (data : ChatRequest) (w w' : World)
    (guest_id message reply apartment_id guest_id' : string) :
  req_guest_id data = Some guest_id → guest_id ≠ "" →
  req_message data = Some message → message ≠ "" →
  chat ext data w = (Ok (JChat reply apartment_id guest_id', 200), w') →
  guest_id' = guest_id
  ∧ apartments_data w' = apartments_data w
  ∧ is_Some (apartments_data w !! apartment_id)
  ∧ (∃ history t1 t2,
       (get_chat_history guest_id w).1 = Ok (HistoryDoc history)
       ∧ chat_history w' !! history_file guest_id
         = Some (HistoryDoc
                   (history ++ [ {| msg_role := "user"; msg_content := message;
                                    msg_timestamp := t1 |};
                                 {| msg_role := "assistant"; msg_content := reply;
                                    msg_timestamp := t2 |} ])))
  ∧ ((req_apartment_id data = Some apartment_id ∧ apartment_id ≠ ""
      ∧ ∃ t, chat_history w' !! guest_file guest_id
             = Some (InfoDoc {| info_guest_id := guest_id;
                                info_apartment_id := apartment_id;
                                info_created_at := t |}))
     ∨ (PyStr.truthy (req_apartment_id data) = false
        ∧ chat_history w' !! guest_file guest_id = chat_history w !! guest_file guest_id
        ∧ ∃ info, chat_history w !! guest_file guest_id = Some (InfoDoc info)
                  ∧ info_apartment_id info = apartment_id)).
Proof.
  intros Hg Hg' Hm Hm' Hchat.
  remember (Ok (JChat reply apartment_id guest_id', 200)) as r eqn:Hr.
  revert Hr. chat_outcomes Hchat guest_id message; intros [=]; subst.
  - split_and!; try done.
    + unfold get_chat_history in *. unfold_monad. cbn [fst chat_history] in *.
      rewrite lookup_insert_ne in Hhist
        by (symmetry; apply history_file_ne_guest_file).
      eexists _, _, _. split; [first [exact Hhist|reflexivity]|].
      by rewrite lookup_insert_eq.
    + left. split; [done|]. split; [done|]. eexists. cbn [chat_history].
      rewrite lookup_insert_ne by apply history_file_ne_guest_file.
      by rewrite lookup_insert_eq.
  - split_and!; try done.
    + eexists _, _, _. split; [first [exact Hhist|reflexivity]|].
      cbn [chat_history]. by rewrite lookup_insert_eq.
    + right. split; [done|]. cbn [chat_history].
      rewrite lookup_insert_ne by apply history_file_ne_guest_file.
      split; [done|]. by eexists.
Qed.

Lemma api_messages_of_app (h1 h2 : list ChatMessage) :
  api_messages_of (h1 ++ h2) = api_messages_of h1 ++ api_messages_of h2.
Proof. unfold api_messages_of. by rewrite filter_app, fmap_app. Qed.

(** X9: the second of two successive turns of a guest shows the hosted
    model the first turn: the earlier messages, the first message and its
    reply, then the new message. *)
Theorem chat_second_turn_sees_first (ext : Externals) (data1 data2 : ChatRequest)
    (w w1 w2 : World) (guest_id message1 message2 : string)
    (history : list ChatMessage) (reply1 apartment_id guest_id' : string)
    (r2 : Result Response) (new : list Event)
    (system : string) (messages : list (string * string)) (reply2 : option string) :
  req_guest_id data1 = Some guest_id → guest_id ≠ "" →
  req_message data1 = Some message1 → message1 ≠ "" →
  req_guest_id data2 = Some guest_id →
  req_message data2 = Some message2 →
  (get_chat_history guest_id w).1 = Ok (HistoryDoc history) →
  chat ext data1 w = (Ok (JChat reply1 apartment_id guest_id', 200), w1) →
  chat ext data2 w1 = (r2, w2) →
  new_effects w1 w2 new →
  EvResponder system messages reply2 ∈ new →
  messages
  = api_messages_of history
    ++ [("user", message1); ("assistant", reply1); ("user", message2)].
Proof.
  intros Hg Hg' Hm1 Hm1' Hg2 Hm2 Hh Hchat1 Hchat2 Hnew Hin.
  destruct (chat_success_inv _ _ _ _ _ _ _ _ _ Hg Hg' Hm1 Hm1' Hchat1)
    as (_ & _ & _ & (h & t1 & t2 & Hh' & Hfile) & _).
  assert (h = history) as -> by congruence.
  destruct (chat_responder_event_inv _ _ _ _ _ _ _ _ _ Hchat2 Hnew Hin)
    as (g & m & a & listing & h1 & Hg3 & Hm3 & _ & _ & Hh1 & _ & _ & ->).
  assert (g = guest_id) as -> by congruence.
  assert (m = message2) as -> by congruence.
  unfold get_chat_history in Hh1. unfold_monad. cbn [fst] in Hh1.
  rewrite Hfile in Hh1. injection Hh1 as <-.
  rewrite api_messages_of_app, <-app_assoc. done.
Qed.


(** Where a supplied apartment id has been written when [chat] ends. *)
Lemma chat_supplied_link_on_file (ext : Externals) (data : ChatRequest) (w : World)
    (guest_id message apartment_id : string) :
  req_guest_id data = Some guest_id → guest_id ≠ "" →
  req_message data = Some message → message ≠ "" →
  req_apartment_id data = Some apartment_id → apartment_id ≠ "" →
  chat_history (chat ext data w).2 !! guest_file guest_id
    = Some (InfoDoc {| info_guest_id := guest_id;
                       info_apartment_id := apartment_id;
                       info_created_at := isoformat_at ext (clock w) |})
  ∧ apartments_data (chat ext data w).2 = apartments_data w.
Proof.
  intros Hg Hg' Hm Hm' Ha Ha'.
  destruct (chat ext data w) as [r w'] eqn:Hchat. cbn [snd].
  chat_outcomes Hchat guest_id message.
  all: try (rewrite Ha, truthy_Some in Ta by done; discriminate Ta).
  all: rewrite Ha in Ha0; injection Ha0 as <-.
  all: split; [|done]; cbn [chat_history].
  all: rewrite ?(lookup_insert_ne _ (history_file guest_id))
         by apply history_file_ne_guest_file.
  all: by rewrite lookup_insert_eq.
Qed.

Lemma history_file_info_suffix (guest_id : string) :
  history_file (guest_id +:+ "_info") = guest_file guest_id.
Proof. unfold history_file, guest_file. by rewrite !append_assoc. Qed.

(** X7: the link file of a guest is the history file of the guest whose
    id is the same with [_info] appended.  For two such guest ids whose
    files are entries of the [chat_history] folder and apartment ids that
    are entry names: once the first guest has sent a request with an
    apartment id, the other guest's "history" is a link record, and a
    [chat] request of that other guest for an existing apartment ends in
    an uncaught [AttributeError]. *)
Theorem chat_info_suffix_collision (ext : Externals) (data1 data2 : ChatRequest)
    (w : World) (guest_id message1 apartment_id1 message2 apartment_id2 : string)
    (listing : Directory) :
  guest_id_names_files guest_id = true →
  guest_id_names_files (guest_id +:+ "_info") = true →
  is_entry_name apartment_id1 = true → is_entry_name apartment_id2 = true →
  req_guest_id data1 = Some guest_id → guest_id ≠ "" →
  req_message data1 = Some message1 → message1 ≠ "" →
  req_apartment_id data1 = Some apartment_id1 → apartment_id1 ≠ "" →
  req_guest_id data2 = Some (guest_id +:+ "_info") →
  req_message data2 = Some message2 → message2 ≠ "" →
  req_apartment_id data2 = Some apartment_id2 → apartment_id2 ≠ "" →
  apartments_data w !! apartment_id2 = Some listing →
  (∃ info, (get_chat_history (guest_id +:+ "_info") (chat ext data1 w).2).1
           = Ok (InfoDoc info))
  ∧ (chat ext data2 (chat ext data1 w).2).1 = Raise AttributeError.
Proof.
  intros _ _ _ _ Hg Hg' Hm1 Hm1' Ha1 Ha1' Hg2 Hm2 Hm2' Ha2 Ha2' Hdir.
  destruct (chat_supplied_link_on_file ext data1 w guest_id message1 apartment_id1)
    as [Hlink Hdirs]; try done.
  set (w1 := (chat ext data1 w).2) in *.
  assert (Hhist : chat_history w1 !! history_file (guest_id +:+ "_info")
                  = Some (InfoDoc {| info_guest_id := guest_id;
                                     info_apartment_id := apartment_id1;
                                     info_created_at := isoformat_at ext (clock w) |}))
    by by rewrite history_file_info_suffix.
  split.
  { eexists. unfold get_chat_history. unfold_monad. cbn [fst]. by rewrite Hhist. }
  assert (Hne : guest_id +:+ "_info" ≠ "") by by destruct guest_id.
  rewrite (chat_run ext data2 (guest_id +:+ "_info") message2) by done.
  rewrite Ha2, chat_resolve_apartment_supplied by done.
  rewrite (load_apartment_info_found ext apartment_id2 listing)
    by (cbn [apartments_data]; by rewrite Hdirs).
  rewrite chat_generate_response_run.
  unfold get_chat_history. unfold_monad. cbn [fst chat_history].
  rewrite lookup_insert_ne by (symmetry; apply history_file_ne_guest_file).
  by rewrite Hhist.
Qed.

(** The history folder after [reset_chat]. *)
Lemma reset_chat_lookup (guest_id path : string) (w : World) :
  chat_history (reset_chat guest_id w).2 !! path
  = if decide (path = history_file guest_id) then None else chat_history w !! path.
Proof.
  unfold reset_chat. unfold_monad. simpl.
  case_bool_decide as Hex; simpl.
  - rewrite lookup_delete. repeat case_decide; congruence.
  - case_decide; [|done]. subst path. by apply eq_None_not_Some.
Qed.

(** X8: after [reset_chat], a successful [chat] without an apartment id
    still answers for the apartment of the guest's link, and the history
    on file is just that one exchange. *)
Theorem chat_after_reset_starts_fresh (ext : Externals) (data : ChatRequest)
    (w w' : World) (guest_id message reply apartment_id guest_id' : string) :
  req_guest_id data = Some guest_id → guest_id ≠ "" →
  req_message data = Some message → message ≠ "" →
  PyStr.truthy (req_apartment_id data) = false →
  chat ext data (reset_chat guest_id w).2
    = (Ok (JChat reply apartment_id guest_id', 200), w') →
  (∃ info, (load_guest_info guest_id w).1 = Ok (Some (InfoDoc info))
           ∧ info_apartment_id info = apartment_id)
  ∧ ∃ t1 t2,
      (get_chat_history guest_id w').1
      = Ok (HistoryDoc [ {| msg_role := "user"; msg_content := message;
                            msg_timestamp := t1 |};
                         {| msg_role := "assistant"; msg_content := reply;
                            msg_timestamp := t2 |} ]).
Proof.
  intros Hg Hg' Hm Hm' Ta Hchat.
  destruct (chat_success_inv _ _ _ _ _ _ _ _ _ Hg Hg' Hm Hm' Hchat)
    as (_ & _ & _ & (h & t1 & t2 & Hh & Hfile) & Hlink).
  split.
  - destruct Hlink as [(Ha & Ha' & _)|(_ & _ & info & Hi & Hia)].
    { by rewrite Ha, truthy_Some in Ta. }
    rewrite reset_chat_lookup in Hi.
    case_decide as Hp; [discriminate Hi|].
    exists info. split; [|done]. unfold load_guest_info. unfold_monad. simpl.
    by rewrite Hi.
  - exists t1, t2. unfold get_chat_history in *. unfold_monad. cbn [fst] in *.
    rewrite reset_chat_lookup in Hh. rewrite decide_True in Hh by done.
    injection Hh as <-. by rewrite Hfile.
Qed.

(** ** Documents *)

Lemma write_file_stores (filename data : string) (d : Directory) :
  (filename, data) ∈ write_file filename data d.
Proof.
  induction d as [|[f x] d IH]; simpl; [left|].
  case_decide; [subst; left|by right].
Qed.

Lemma write_file_others (filename data g x : string) (d : Directory) :
  g ≠ filename → (g, x) ∈ write_file filename data d ↔ (g, x) ∈ d.
Proof.
  intros Hne. induction d as [|[f y] d IH]; simpl.
  - rewrite list_elem_of_singleton. split; [congruence|].
    intros H. by apply not_elem_of_nil in H.
  - case_decide.
    + subst f. rewrite !elem_of_cons. split; intros [[=]|?]; auto; congruence.
    + rewrite !elem_of_cons, IH. done.
Qed.

Lemma write_file_names (filename data : string) (d : Directory) :
  ∀ g, g ∈ (write_file filename data d).*1 ↔ g = filename ∨ g ∈ d.*1.
Proof.
  intros g. induction d as [|[f y] d IH]; simpl.
  - rewrite list_elem_of_singleton. split; [auto|].
    intros [?|H]; [done|by apply not_elem_of_nil in H].
  - case_decide.
    + subst f. simpl. rewrite !elem_of_cons. tauto.
    + simpl. rewrite !elem_of_cons, IH. tauto.
Qed.

Lemma write_file_NoDup (filename data : string) (d : Directory) :
  NoDup d.*1 → NoDup (write_file filename data d).*1.
Proof.
  induction d as [|[f y] d IH]; simpl; intros Hnd.
  - apply NoDup_singleton.
  - apply NoDup_cons in Hnd as [Hnotin Hnd]. case_decide.
    + simpl. by apply NoDup_cons.
    + simpl. apply NoDup_cons. split; [|by apply IH].
      rewrite write_file_names. intros [?|?]; [congruence|done].
Qed.

Lemma remove_file_elem (filename g x : string) (d : Directory) :
  (g, x) ∈ remove_file filename d ↔ g ≠ filename ∧ (g, x) ∈ d.
Proof. unfold remove_file. by rewrite list_elem_of_filter. Qed.

Lemma remove_file_names (filename g : string) (d : Directory) :
  g ∈ (remove_file filename d).*1 ↔ g ≠ filename ∧ g ∈ d.*1.
Proof.
  rewrite !list_elem_of_fmap. split.
  - intros ([g' x] & -> & Hin). apply remove_file_elem in Hin as [? ?].
    split; [done|]. by exists (g', x).
  - intros (Hne & [g' x] & -> & Hin). exists (g', x). split; [done|].
    by apply remove_file_elem.
Qed.

Lemma remove_file_NoDup (filename : string) (d : Directory) :
  NoDup d.*1 → NoDup (remove_file filename d).*1.
Proof.
  unfold remove_file. induction d as [|[f y] d IH]; simpl; intros Hnd; [done|].
  apply NoDup_cons in Hnd as [Hnotin Hnd].
  destruct (decide (f ≠ filename)).
  - rewrite filter_cons_True by done. simpl. apply NoDup_cons. split; [|by apply IH].
    intros Hin. apply (remove_file_names filename f d) in Hin. tauto.
  - rewrite filter_cons_False by done. by apply IH.
Qed.

(** The store after an upload that got as far as saving. *)
Lemma upload_document_run (ext : Externals) (apartment_id : string)
    (file : FileStorage) (w : World) :
  allowed_file (file_filename file) = true →
  secure_filename ext (file_filename file) ≠ "" →
  upload_document ext apartment_id (Some file) w
  = (Ok (JUpload "Documento subido exitosamente" apartment_id
           (secure_filename ext (file_filename file)), 200),
     with_apartments_data
       (λ dirs, <[apartment_id :=
                    write_file (secure_filename ext (file_filename file))
                      (file_data file) (default [] (dirs !! apartment_id))]> dirs)
       w).
Proof.
  intros Hallowed Hname. unfold upload_document.
  assert (file_filename file ≠ "") as Hne.
  { intros E. by rewrite E in Hallowed. }
  rewrite bool_decide_eq_false_2 by done. rewrite Hallowed. cbn [negb].
  unfold_monad. rewrite bool_decide_eq_false_2 by done.
  unfold with_apartments_data. cbn. f_equal. f_equal.
  destruct (apartments_data w !! apartment_id) as [listing|] eqn:Hdir; cbn.
  - apply map_eq. intros b. destruct (decide (apartment_id = b)) as [<-|Hb].
    + by rewrite lookup_alter_eq, lookup_insert_eq, Hdir.
    + by rewrite lookup_alter_ne, lookup_insert_ne.
  - apply map_eq. intros b. destruct (decide (apartment_id = b)) as [<-|Hb].
    + by rewrite lookup_alter_eq, !lookup_insert_eq.
    + by rewrite lookup_alter_ne, !lookup_insert_ne.
Qed.

(** X10: an upload that is answered 200 has stored the uploaded bytes
    under the sanitized name in the apartment's directory (created if it
    did not exist), and has changed no other file, no other directory and
    no chat file. *)
Theorem upload_stores_file (ext : Externals) (apartment_id : string)
    (file : FileStorage) (w w' : World) (body : Body) :
  upload_document ext apartment_id (Some file) w = (Ok (body, 200), w') →
  body = JUpload "Documento subido exitosamente" apartment_id
           (secure_filename ext (file_filename file))
  ∧ allowed_file (file_filename file) = true
  ∧ (∃ listing',
       apartments_data w' !! apartment_id = Some listing'
       ∧ (secure_filename ext (file_filename file), file_data file) ∈ listing'
       ∧ ∀ g x, g ≠ secure_filename ext (file_filename file) →
           (g, x) ∈ listing'
           ↔ (g, x) ∈ default [] (apartments_data w !! apartment_id))
  ∧ (∀ b, b ≠ apartment_id → apartments_data w' !! b = apartments_data w !! b)
  ∧ chat_history w' = chat_history w.
Proof.
  intros Hrun.
  destruct (allowed_file (file_filename file)) eqn:Hallowed; cycle 1.
  { unfold upload_document in Hrun. rewrite Hallowed in Hrun.
    case_bool_decide; unfold_monad; discriminate Hrun. }
  destruct (decide (secure_filename ext (file_filename file) = "")) as [He|Hne].
  { unfold upload_document in Hrun. rewrite Hallowed in Hrun.
    case_bool_decide; unfold_monad; [discriminate Hrun|].
    cbn in Hrun. rewrite bool_decide_eq_true_2 in Hrun by done.
    discriminate Hrun. }
  rewrite upload_document_run in Hrun by done. injection Hrun as <- <-.
  split_and!; try done.
  - eexists. cbn. rewrite lookup_insert_eq. split; [done|].
    split; [apply write_file_stores|]. intros g x Hg. by apply write_file_others.
  - intros b Hb. cbn. by rewrite lookup_insert_ne.
Qed.

(** X11: an upload is answered 400 exactly when no file part is sent or
    the file name fails [allowed_file] (the empty name among them), and
    such an upload changes nothing. *)
Theorem upload_refused_iff (ext : Externals) (apartment_id : string)
    (files_file : option FileStorage) (w : World) :
  (status_of (upload_document ext apartment_id files_file w) = Some 400
   ↔ files_file = None
     ∨ ∃ file, files_file = Some file ∧ allowed_file (file_filename file) = false)
  ∧ (status_of (upload_document ext apartment_id files_file w) = Some 400 →
     (upload_document ext apartment_id files_file w).2 = w).
Proof.
  destruct files_file as [file|]; cycle 1.
  { split; [|done]. split; [by left|done]. }
  destruct (allowed_file (file_filename file)) eqn:Hallowed.
  - assert (Hnot : status_of (upload_document ext apartment_id (Some file) w) ≠ Some 400).
    { destruct (decide (secure_filename ext (file_filename file) = "")) as [He|Hne].
      - unfold upload_document. rewrite Hallowed.
        case_bool_decide as Hn; [by rewrite Hn in Hallowed|].
        unfold status_of. unfold_monad. cbn.
        by rewrite bool_decide_eq_true_2 by done.
      - by rewrite upload_document_run by done. }
    split; [|done]. split; [done|].
    intros [?|(f & [= <-] & Hf)]; congruence.
  - assert (Hrun : ∃ error, upload_document ext apartment_id (Some file) w
                            = (Ok (JError error, 400), w)).
    { unfold upload_document. rewrite Hallowed.
      case_bool_decide; unfold_monad; by eexists. }
    destruct Hrun as [error ->]. split; [|done].
    split; [|done]. intros _. right. by exists file.
Qed.


(** The store after a deletion that found its file. *)
Lemma delete_document_run (ext : Externals) (apartment_id filename : string)
    (listing : Directory) (w : World) :
  apartments_data w !! apartment_id = Some listing →
  secure_filename ext filename ≠ "" →
  secure_filename ext filename ∈ listing.*1 →
  delete_document ext apartment_id filename w
  = (Ok (JDeleted "Documento eliminado exitosamente" apartment_id filename, 200),
     with_apartments_data
       (insert apartment_id (remove_file (secure_filename ext filename) listing)) w).
Proof.
  intros Hdir Hname Hin. unfold delete_document. unfold_monad. cbn.
  rewrite Hdir. rewrite bool_decide_eq_false_2 by done.
  rewrite bool_decide_eq_true_2 by done.
  unfold with_apartments_data. cbn. f_equal. f_equal.
  apply map_eq. intros b. destruct (decide (apartment_id = b)) as [<-|Hb].
  - by rewrite lookup_alter_eq, lookup_insert_eq, Hdir.
  - by rewrite lookup_alter_ne, lookup_insert_ne.
Qed.



(** X14: after a successful upload, deleting the document under the
    name it was uploaded with is answered 200, and the directory then
    holds exactly the other files it held before the upload. *)
Theorem upload_then_delete (ext : Externals) (apartment_id : string)
    (file : FileStorage) (w w1 : World) (body : Body) :
  upload_document ext apartment_id (Some file) w = (Ok (body, 200), w1) →
  (delete_document ext apartment_id (file_filename file) w1).1
    = Ok (JDeleted "Documento eliminado exitosamente" apartment_id
            (file_filename file), 200)
  ∧ ∃ listing2,
      apartments_data (delete_document ext apartment_id (file_filename file) w1).2
        !! apartment_id = Some listing2
      ∧ ∀ g x, (g, x) ∈ listing2
               ↔ g ≠ secure_filename ext (file_filename file)
                 ∧ (g, x) ∈ default [] (apartments_data w !! apartment_id).
Proof.
  intros Hup.
  destruct (allowed_file (file_filename file)) eqn:Hallowed; cycle 1.
  { unfold upload_document in Hup. rewrite Hallowed in Hup.
    case_bool_decide; unfold_monad; discriminate Hup. }
  destruct (decide (secure_filename ext (file_filename file) = "")) as [He|Hne].
  { unfold upload_document in Hup. rewrite Hallowed in Hup.
    case_bool_decide; unfold_monad; [discriminate Hup|].
    cbn in Hup. rewrite bool_decide_eq_true_2 in Hup by done. discriminate Hup. }
  rewrite upload_document_run in Hup by done. injection Hup as _ <-.
  set (name := secure_filename ext (file_filename file)) in *.
  set (old := default [] (apartments_data w !! apartment_id)).
  rewrite (delete_document_run ext apartment_id (file_filename file)
             (write_file name (file_data file) old)).
  - split; [done|]. eexists. cbn. rewrite lookup_insert_eq. split; [done|].
    intros g x. rewrite remove_file_elem. split.
    + intros [Hg Hin]. split; [done|]. by apply write_file_others in Hin.
    + intros [Hg Hin]. split; [done|]. by apply write_file_others.
  - cbn. by rewrite lookup_insert_eq.
  - done.
  - apply write_file_names. by left.
Qed.

(** File names inside every apartment directory stay pairwise distinct
    under [upload_document] and [delete_document], whatever their
    outcome. *)
Lemma directories_keep_distinct_names (ext : Externals) (apartment_id : string)
    (files_file : option FileStorage) (filename : string) (w : World) :
  (∀ b listing, apartments_data w !! b = Some listing → NoDup (listing.*1)) →
  (∀ b listing,
     apartments_data (upload_document ext apartment_id files_file w).2 !! b
       = Some listing → NoDup (listing.*1))
  ∧ (∀ b listing,
       apartments_data (delete_document ext apartment_id filename w).2 !! b
         = Some listing → NoDup (listing.*1)).
Proof.
  intros Hinv. split.
  - intros b listing. unfold upload_document.
    destruct files_file as [file|]; [|apply Hinv].
    case_bool_decide; [apply Hinv|].
    destruct (allowed_file (file_filename file)); [|apply Hinv].
    unfold_monad. cbn.
    assert (Hdirs : ∀ c l,
              match apartments_data w !! apartment_id with
              | Some _ => apartments_data w
              | None => <[apartment_id:=[]]> (apartments_data w)
              end !! c = Some l → NoDup (l.*1)).
    { intros c l.
      destruct (apartments_data w !! apartment_id) eqn:Hd; [apply Hinv|].
      destruct (decide (apartment_id = c)) as [<-|Hc].
      - rewrite lookup_insert_eq. intros [= <-]. constructor.
      - rewrite lookup_insert_ne by done. apply Hinv. }
    case_bool_decide; cbn; [apply Hdirs|].
    destruct (decide (apartment_id = b)) as [<-|Hb].
    + rewrite lookup_alter_eq. intros Hl.
      apply fmap_Some in Hl as (l & Hl & ->).
      apply write_file_NoDup. by eapply Hdirs.
    + rewrite lookup_alter_ne by done. apply Hdirs.
  - intros b listing. unfold delete_document. unfold_monad. cbn.
    destruct (apartments_data w !! apartment_id) as [l|] eqn:Hl; [|apply Hinv].
    case_bool_decide; [apply Hinv|].
    case_bool_decide; cbn; [|apply Hinv].
    destruct (decide (apartment_id = b)) as [<-|Hb].
    + rewrite lookup_alter_eq, Hl. intros [= <-].
      apply remove_file_NoDup. by eapply Hinv.
    + rewrite lookup_alter_ne by done. apply Hinv.
Qed.

(** The full text is the documents' sections, one after the other. *)
Lemma load_full_text_is_sections (ext : Externals) (info : ApartmentInfo)
    (listing : Directory) :
  apt_full_text (foldl (load_document ext) info listing)
  = apt_full_text info
    +:+ foldr (λ doc rest, section_marker doc.1 +:+ doc.2 +:+ rest) ""
          (extracted ext <$> filter (λ entry, loader_accepts entry.1 = true) listing).
Proof.
  revert info. induction listing as [|entry listing IH]; intros info.
  - cbn. by rewrite append_nil_r.
  - cbn [foldl]. rewrite IH. destruct (loader_accepts entry.1) eqn:Hacc.
    + rewrite load_document_adds by done. cbn [apt_full_text].
      rewrite filter_cons_True by done. rewrite fmap_cons. cbn [foldr].
      by rewrite !append_assoc.
    + rewrite load_document_skips by done.
      rewrite filter_cons_False; [done|]. by rewrite Hacc.
Qed.

(** X16: for an existing directory the loader returns the apartment id,
    one document per file whose name ends in [.pdf], [.docx] or [.doc],
    in listing order and with the text of its extractor (the PDF one for
    [.pdf], the Word one otherwise), and a full text that is the
    concatenation of each document's marker and text in that order. *)
Theorem loader_result_spec (ext : Externals) (apartment_id : string)
    (listing : Directory) (w : World) :
  apartments_data w !! apartment_id = Some listing →
  ∃ info,
    load_apartment_info ext apartment_id w = (Ok (Some info), w)
    ∧ apt_apartment_id info = apartment_id
    ∧ apt_documents info
      = extracted ext <$> filter (λ entry, loader_accepts entry.1 = true) listing
    ∧ apt_full_text info
      = foldr (λ doc rest, section_marker doc.1 +:+ doc.2 +:+ rest) ""
          (apt_documents info).
Proof.
  intros Hdir. eexists. split.
  { unfold load_apartment_info. unfold_monad. cbn. by rewrite Hdir. }
  rewrite load_keeps_apartment_id, load_documents_are_accepted_files,
    load_full_text_is_sections. done.
Qed.

(** X17: every file of the directory that the loader accepts has its
    marker, followed by its extracted text, in the full text, in
    whatever order the directory is listed; and the marker contains the
    file name. *)
Theorem loader_sections_any_order (ext : Externals) (apartment_id : string)
    (listing listing' : Directory) (w w' : World) (entry : string * string)
    (info' : ApartmentInfo) :
  apartments_data w !! apartment_id = Some listing →
  apartments_data w' !! apartment_id = Some listing' →
  listing ≡ₚ listing' →
  entry ∈ listing → loader_accepts entry.1 = true →
  (load_apartment_info ext apartment_id w').1 = Ok (Some info') →
  occurs_in (section_marker entry.1 +:+ (extracted ext entry).2) (apt_full_text info')
  ∧ occurs_in entry.1 (section_marker entry.1).
Proof.
  intros Hdir Hdir' Hperm Hin Hacc Hload.
  rewrite (load_apartment_info_found ext apartment_id listing' w' Hdir') in Hload.
  injection Hload as <-. split.
  - apply load_full_text_has_section; [|done]. by rewrite <-Hperm.
  - by destruct (load_full_text_has_marker_any_order ext
                   {| apt_apartment_id := apartment_id; apt_documents := [];
                      apt_full_text := "" |} listing listing' entry Hperm Hin Hacc).
Qed.

(** X18: every document the loader puts into an apartment's knowledge is
    among the documents [list_documents] shows for that apartment. *)
Theorem loaded_documents_are_listed (ext : Externals) (apartment_id : string)
    (w : World) (info : ApartmentInfo) (name text : string) :
  (load_apartment_info ext apartment_id w).1 = Ok (Some info) →
  (name, text) ∈ apt_documents info →
  ∃ documents,
    (list_documents apartment_id w).1 = Ok (JDocuments apartment_id documents, 200)
    ∧ name ∈ documents.
Proof.
  intros Hload Hin.
  destruct (apartments_data w !! apartment_id) as [listing|] eqn:Hdir; cycle 1.
  { unfold load_apartment_info in Hload. unfold_monad. cbn in Hload.
    rewrite Hdir in Hload. discriminate Hload. }
  rewrite (load_apartment_info_found ext apartment_id listing w Hdir) in Hload.
  injection Hload as <-.
  rewrite load_documents_are_accepted_files in Hin. cbn [apt_documents app] in Hin.
  apply list_elem_of_fmap in Hin as (entry & Heq & Hentry).
  apply list_elem_of_filter in Hentry as [Hacc Hentry].
  injection Heq as -> _.
  eexists. unfold list_documents. unfold_monad. cbn. rewrite Hdir. cbn.
  split; [done|]. apply list_elem_of_filter. split.
  - rewrite loader_accepts_allowed by done. done.
  - apply list_elem_of_fmap. by exists entry.
Qed.

(** ** The inbound webhook of [app.py] *)


Lemma whatsapp_webhook_post_unfold (data : Json.value) :
  whatsapp_webhook_post data
  = match notification_value data with
    | Json.Fail _ => ("error", 500)
    | Json.Got value =>
        match Json.contains "messages" value with
        | Json.Fail _ => ("error", 500)
        | Json.Got false => ("ok", 200)
        | Json.Got true =>
            match
              Json.bind (Json.subscript value "messages") (λ messages,
              Json.bind (Json.subscript0 messages) (λ message,
              Json.bind (Json.subscript message "from") (λ _,
              Json.bind (Json.subscript message "text") (λ text,
              Json.subscript text "body"))))
            with
            | Json.Got _ => ("received", 200)
            | Json.Fail _ => ("error", 500)
            end
        end
    end.
Proof.
  unfold whatsapp_webhook_post, notification_value.
  destruct (Json.subscript data "entry") as [entries|]; [|done]. cbn [Json.bind].
  destruct (Json.subscript0 entries) as [entry|]; [|done]. cbn [Json.bind].
  destruct (Json.subscript entry "changes") as [cl|]; [|done]. cbn [Json.bind].
  destruct (Json.subscript0 cl) as [changes|]; [|done]. cbn [Json.bind].
  destruct (Json.subscript changes "value") as [value|]; [|done]. cbn [Json.bind].
  destruct (Json.contains "messages" value) as [[|]|]; [|done..]. cbn [Json.bind].
  destruct (Json.subscript value "messages") as [ms|]; [|done]. cbn [Json.bind].
  destruct (Json.subscript0 ms) as [m|]; [|done]. cbn [Json.bind].
  destruct (Json.subscript m "from") as [f|]; [|done]. cbn [Json.bind].
  destruct (Json.subscript m "text") as [t|]; [|done]. cbn [Json.bind].
  by destruct (Json.subscript t "body").
Qed.

(** X19: the answers of the webhook [POST].  A payload without the path
    [entry[0].changes[0].value] is answered [error]/500; a notification
    whose value object has no [messages] key (a delivery status, say) is
    answered [ok]/200; and one whose first message is an object is
    answered [received]/200 exactly when that message has a [from] key
    and a [text] object with a [body] key, and [error]/500 otherwise (a
    message without text, such as an image, among them). *)
Theorem whatsapp_webhook_post_answers (data : Json.value) :
  (∀ e, notification_value data = Json.Fail e →
        whatsapp_webhook_post data = ("error", 500))
  ∧ (∀ fields, notification_value data = Json.Got (Json.Obj fields) →
               Json.assoc "messages" fields = None →
               whatsapp_webhook_post data = ("ok", 200))
  ∧ (∀ fields message rest,
       notification_value data = Json.Got (Json.Obj fields) →
       Json.assoc "messages" fields
         = Some (Json.Arr (Json.Obj message :: rest)) →
       (whatsapp_webhook_post data = ("received", 200)
        ↔ is_Some (Json.assoc "from" message)
          ∧ ∃ text, Json.assoc "text" message = Some (Json.Obj text)
                    ∧ is_Some (Json.assoc "body" text))
       ∧ (whatsapp_webhook_post data = ("received", 200)
          ∨ whatsapp_webhook_post data = ("error", 500))).
Proof.
  rewrite whatsapp_webhook_post_unfold. split_and!.
  - by intros e ->.
  - intros fields -> Hm. cbn. by rewrite Hm.
  - intros fields message rest -> Hm. cbn. rewrite Hm. cbn.
    destruct (Json.assoc "from" message) as [from|]; cbn; cycle 1.
    { split; [|by right]. split; [done|]. by intros [[? [=]] _]. }
    destruct (Json.assoc "text" message) as [text|]; cbn; cycle 1.
    { split; [|by right]. split; [done|]. by intros [_ (? & [=] & _)]. }
    destruct text as [| | | | |tf]; cbn;
      try (split; [|by right]; split; [done|]; by intros [_ (? & [=] & _)]).
    destruct (Json.assoc "body" tf) as [body|] eqn:Hb; cbn.
    + split; [|by left]. split; [|done]. intros _. split; [by eexists|].
      exists tf. split; [done|]. by rewrite Hb.
    + split; [|by right]. split; [done|].
      intros [_ (tf' & [= <-] & [? Hs])]. congruence.
Qed.

Lemma whatsapp_webhook_post_answers_witness :
  whatsapp_webhook_post
    (Json.Obj [("entry",
       Json.Arr [Json.Obj [("changes",
         Json.Arr [Json.Obj [("value",
           Json.Obj [("messages",
             Json.Arr [Json.Obj [("from", Json.Str "34612345678");
                                 ("type", Json.Str "image")]])])]])]])])
  = ("error", 500).
Proof.
  set (message := [("from", Json.Str "34612345678"); ("type", Json.Str "image")]).
  set (data := Json.Obj _).
  destruct (whatsapp_webhook_post_answers data) as (_ & _ & H).
  destruct (H [("messages", Json.Arr [Json.Obj message])] message [] eq_refl eq_refl)
    as [Hiff [Hr|He]]; [|exact He].
  apply Hiff in Hr as [_ (text & Ht & _)]. discriminate Ht.
Defined.

(** ** The phone registry, continued *)

(** X20: [unregister_guest] never raises.  Afterwards the number has no
    apartment and every other number has the entry it had.  For a
    number that was registered the registry file is rewritten, so a new
    registry object on the same file agrees with the one in memory; for
    a number that was not, nothing at all changes (no file is written). *)
Theorem unregister_guest_spec (phone_number : string) (s : WhatsApp.RegistryState) :
  let s' := (WhatsApp.unregister_guest phone_number s).2 in
  (WhatsApp.unregister_guest phone_number s).1 = Ok tt
  ∧ (WhatsApp.get_apartment_id phone_number s').1 = Ok None
  ∧ (∀ other, other ≠ phone_number →
       WhatsApp.registry s' !! other = WhatsApp.registry s !! other)
  ∧ (is_Some (WhatsApp.registry s !! phone_number) →
     ∀ now, WhatsApp.registry
              (WhatsApp.init (WhatsApp.storage_file s') (WhatsApp.disk s') now)
            = WhatsApp.registry s')
  ∧ (WhatsApp.registry s !! phone_number = None → s' = s).
Proof.
  unfold WhatsApp.unregister_guest, WhatsApp._save_registry, WhatsApp.get_apartment_id,
    WhatsApp.init, WhatsApp._load_registry.
  unfold_monad. cbn.
  case_bool_decide as Hreg; cbn.
  - split_and!; try done.
    + by rewrite lookup_delete_eq.
    + intros other Ho. by rewrite lookup_delete_ne.
    + intros _ _. by rewrite lookup_insert_eq.
    + intros Hn. rewrite Hn in Hreg. by destruct Hreg.
  - split_and!; try done.
    apply eq_None_not_Some in Hreg. by rewrite Hreg.
Qed.

(** ** The WSGI entry point *)

(** X21: because the function defined in [passenger_wsgi.py] takes the
    name [application] from the imported Flask object, a call of the
    module's [application] calls itself until the stack is exhausted: it
    ends in [RecursionError] for every recursion limit and never reaches
    the Flask application. *)
Theorem passenger_application_never_reaches_flask (frames : nat) :
  Passenger.module_globals !! "application" = Some Passenger.WsgiFunction
  ∧ Passenger.serve frames = Passenger.RecursionError
  ∧ Passenger.serve frames ≠ Passenger.FlaskResponse.
Proof.
  assert (Hg : Passenger.module_globals !! "application" = Some Passenger.WsgiFunction).
  { unfold Passenger.module_globals. cbn. by rewrite lookup_insert_eq. }
  assert (Hcall : ∀ n, Passenger.call n Passenger.WsgiFunction = Passenger.RecursionError).
  { induction n as [|n IH]; [done|]. cbn [Passenger.call]. by rewrite Hg. }
  unfold Passenger.serve. rewrite Hg, Hcall. done.
Qed.

(** ** The inbound pipeline of [whatsapp_integration.py] *)






Section PipelineFacts.
Context (net : Messaging.Network) (client : Messaging.WhatsAppClient)
  (registry : gmap string WhatsApp.RegistryEntry) (url : string).

Ltac unfold_run :=
  unfold graph_call, Messaging.send_message, Messaging.mark_as_read,
    Messaging.post_to_graph,
    Messaging.get_apartment_id, Messaging.lift, Messaging.throw, Messaging.record,
    mbind, Messaging.Run_bind, mret, Messaging.Run_ret in *.

Lemma process_body_first_message (data : Json.value) (log : list Messaging.Call) :
  Messaging.process_body net data client registry url log
  = match first_message data with
    | Json.Fail e => (Messaging.Thrown (Messaging.JsonError e), log)
    | Json.Got None => (Messaging.Done Messaging.NoMessage, log)
    | Json.Got (Some message) =>
        Messaging.process_message net message client registry url log
    end.
Proof.
  unfold Messaging.process_body, first_message, notification_value. unfold_run.
  destruct (Json.subscript data "entry") as [entries|]; [|done]. cbn [Json.bind].
  destruct (Json.subscript0 entries) as [entry|]; [|done]. cbn [Json.bind].
  destruct (Json.subscript entry "changes") as [cl|]; [|done]. cbn [Json.bind].
  destruct (Json.subscript0 cl) as [changes|]; [|done]. cbn [Json.bind].
  destruct (Json.subscript changes "value") as [value|]; [|done]. cbn [Json.bind].
  destruct (Json.contains "messages" value) as [[|]|]; [|done..]. cbn [Json.bind negb].
  destruct (Json.subscript value "messages") as [ms|]; [|done]. cbn [Json.bind].
  by destruct (Json.subscript0 ms) as [m|].
Qed.

(** X22: a first message whose [type] is not the string [text] gets the
    fixed "text only" reply, addressed to its sender, and nothing else
    happens: it is not marked as read and the concierge is not called. *)
Theorem process_non_text_message (data message from_number message_id message_type
    : Json.value) (log : list Messaging.Call) :
  first_message data = Json.Got (Some message) →
  Json.subscript message "from" = Json.Got from_number →
  Json.subscript message "id" = Json.Got message_id →
  Json.subscript message "type" = Json.Got message_type →
  message_type ≠ Json.Str "text" →
  Messaging.process_whatsapp_message net data client registry url log
  = (Messaging.Done Messaging.UnsupportedType,
     log ++ [graph_call client (text_payload from_number
                           (Json.Str Messaging.unsupported_text))]).
Proof.
  intros Hm Hf Hi Ht Hne.
  unfold Messaging.process_whatsapp_message.
  rewrite process_body_first_message, Hm.
  unfold Messaging.process_message. unfold_run. rewrite Hf, Hi, Ht.
  assert (Json.is_str "text" message_type = false) as ->.
  { destruct message_type; try done. cbn. apply bool_decide_eq_false. congruence. }
  cbn [negb]. by destruct (Messaging.graph_api net _ _ _).
Qed.

(** X23: a text message whose sender is a string that the registry does
    not know, or knows with an empty apartment id, is marked as read and
    answered with the fixed "contact support" text; the concierge is not
    called. *)
Theorem process_unregistered_sender (data message message_id text body : Json.value)
    (phone : string) (log : list Messaging.Call) :
  first_message data = Json.Got (Some message) →
  Json.subscript message "from" = Json.Got (Json.Str phone) →
  Json.subscript message "id" = Json.Got message_id →
  Json.subscript message "type" = Json.Got (Json.Str "text") →
  Json.subscript message "text" = Json.Got text →
  Json.subscript text "body" = Json.Got body →
  (∀ entry, registry !! phone = Some entry → WhatsApp.entry_apartment_id entry = "") →
  Messaging.process_whatsapp_message net data client registry url log
  = (Messaging.Done Messaging.GuestNotRegistered,
     log ++ [graph_call client (read_payload message_id);
             graph_call client (text_payload (Json.Str phone)
                           (Json.Str Messaging.not_registered_text))]).
Proof.
  intros Hm Hf Hi Ht Htx Hb Hreg.
  unfold Messaging.process_whatsapp_message.
  rewrite process_body_first_message, Hm.
  unfold Messaging.process_message. unfold_run. rewrite Hf, Hi, Ht. cbn [Json.is_str].
  rewrite bool_decide_eq_true_2 by done. cbn [negb]. rewrite Htx, Hb.
  destruct (Messaging.graph_api net _ _ (Json.Obj [_; ("status", _); _])).
  all: assert (PyStr.truthy
                 match registry !! phone with
                 | Some guest_info => Some (WhatsApp.entry_apartment_id guest_info)
                 | None => None
                 end = false) as ->
         by (destruct (registry !! phone) as [entry|] eqn:He;
             [by rewrite (Hreg entry)|done]).
  all: cbn [negb]; destruct (Messaging.graph_api net _ _ _); by rewrite <-app_assoc.
Qed.

(** X24: for a text message of a registered sender the concierge is
    called once, at [concierge_api_url/chat], with the sender as guest
    id, the registered apartment id and the message body.  If it answers
    with a success status and a JSON object holding [response], that
    response is sent to the sender unchanged and the result is
    [success]; if it answers with an error status, the sender gets the
    fixed apology and the result is [api_error]; if the request itself
    raises, the result is [error] and the sender gets no message. *)
Theorem process_registered_sender (data message message_id text body : Json.value)
    (phone : string) (entry : WhatsApp.RegistryEntry) (log : list Messaging.Call) :
  first_message data = Json.Got (Some message) →
  Json.subscript message "from" = Json.Got (Json.Str phone) →
  Json.subscript message "id" = Json.Got message_id →
  Json.subscript message "type" = Json.Got (Json.Str "text") →
  Json.subscript message "text" = Json.Got text →
  Json.subscript text "body" = Json.Got body →
  registry !! phone = Some entry →
  WhatsApp.entry_apartment_id entry ≠ "" →
  let apartment := Json.Str (WhatsApp.entry_apartment_id entry) in
  let request := chat_payload (Json.Str phone) apartment body in
  let called := log ++ [graph_call client (read_payload message_id);
                        Messaging.ConciergeCall (url +:+ "/chat") request] in
  let run := Messaging.process_whatsapp_message net data client registry url log in
  (∀ fields reply,
     Messaging.concierge_api net (url +:+ "/chat") request
       = inr {| Messaging.resp_ok := true;
                Messaging.resp_json := Some (Json.Obj fields) |} →
     Json.assoc "response" fields = Some reply →
     run = (Messaging.Done (Messaging.Success (Json.Str phone) apartment body reply),
            called ++ [graph_call client (text_payload (Json.Str phone) reply)]))
  ∧ (∀ answer,
       Messaging.concierge_api net (url +:+ "/chat") request
         = inr {| Messaging.resp_ok := false; Messaging.resp_json := answer |} →
       run = (Messaging.Done Messaging.ApiError,
              called ++ [graph_call client (text_payload (Json.Str phone)
                                       (Json.Str Messaging.api_error_text))]))
  ∧ (∀ e,
       Messaging.concierge_api net (url +:+ "/chat") request = inl e →
       run = (Messaging.Done (Messaging.Error (Messaging.RequestException e)),
              called)).
Proof.
  intros Hm Hf Hi Ht Htx Hb Hreg Hapt. cbv zeta.
  unfold Messaging.process_whatsapp_message.
  rewrite process_body_first_message, Hm.
  unfold Messaging.process_message. unfold_run. rewrite Hf, Hi, Ht. cbn [Json.is_str].
  rewrite bool_decide_eq_true_2 by done. cbn [negb]. rewrite Htx, Hb, Hreg.
  rewrite truthy_Some by done. cbn [negb default].
  unfold chat_payload.
  unfold id. split_and!.
  - intros fields reply Hc Hr. rewrite Hc. cbn [Messaging.resp_ok Messaging.resp_json].
    cbn [Json.subscript]. rewrite Hr.
    destruct (Messaging.graph_api net _ _ (Json.Obj [_; ("status", _); _]));
      destruct (Messaging.graph_api net _ _ _); by rewrite <-!app_assoc.
  - intros answer Hc. rewrite Hc. cbn [Messaging.resp_ok].
    destruct (Messaging.graph_api net _ _ (Json.Obj [_; ("status", _); _]));
      destruct (Messaging.graph_api net _ _ _); by rewrite <-!app_assoc.
  - intros e Hc. rewrite Hc.
    destruct (Messaging.graph_api net _ _ (Json.Obj [_; ("status", _); _]));
      by rewrite <-!app_assoc.
Qed.

Ltac solve_log :=
  first [ symmetry; apply app_nil_r | rewrite <-?app_assoc; reflexivity ].

Ltac only_graph_calls :=
  split; [by eexists|];
  eexists; split; [solve_log|];
  split; [cbn; lia|];
  split;
  [ intros ? ? Hin; apply list_elem_of_In in Hin; cbn in Hin;
    intuition discriminate
  | intros ? ? ? Hin; apply list_elem_of_In in Hin; cbn in Hin;
    intuition (simplify_eq; done) ].

(** X25: whatever the payload and whatever the network does,
    [process_whatsapp_message] returns a status and never raises; it
    makes at most three requests; every request to the messaging
    platform goes to the client's messages endpoint with its headers;
    and the concierge is called only for a sender that is a registered
    string with a non-empty apartment id, at [concierge_api_url/chat],
    with that sender as guest id and that apartment id. *)
Theorem process_calls_concierge_only_for_registered (data : Json.value)
    (log : list Messaging.Call) :
  let run := Messaging.process_whatsapp_message net data client registry url log in
  (∃ status, run.1 = Messaging.Done status)
  ∧ ∃ new,
      run.2 = log ++ new
      ∧ length new ≤ 3
      ∧ (∀ u b, Messaging.ConciergeCall u b ∈ new →
           u = url +:+ "/chat"
           ∧ ∃ phone entry body,
               registry !! phone = Some entry
               ∧ WhatsApp.entry_apartment_id entry ≠ ""
               ∧ b = chat_payload (Json.Str phone)
                       (Json.Str (WhatsApp.entry_apartment_id entry)) body)
      ∧ (∀ u h d, Messaging.GraphCall u h d ∈ new →
           u = Messaging.messages_url client ∧ h = Messaging.headers client).
Proof.
  cbv zeta. unfold Messaging.process_whatsapp_message.
  rewrite process_body_first_message.
  destruct (first_message data) as [[message|]|e]; [|only_graph_calls..].
  unfold Messaging.process_message. unfold_run.
  destruct (Json.subscript message "from") as [from|]; [|only_graph_calls].
  destruct (Json.subscript message "id") as [message_id|]; [|only_graph_calls].
  destruct (Json.subscript message "type") as [message_type|]; [|only_graph_calls].
  destruct (Json.is_str "text" message_type); cbn [negb]; cycle 1.
  { destruct (Messaging.graph_api net _ _ _); cbn; only_graph_calls. }
  destruct (Json.subscript message "text") as [text|]; [|only_graph_calls].
  destruct (Json.subscript text "body") as [body|]; [|only_graph_calls].
  destruct (Messaging.graph_api net _ _ (Json.Obj [_; ("status", _); _])) as [e1|b1].
  all: destruct from as [| | |phone| |]; cbn [fst snd].
  all: try (destruct (Messaging.graph_api net _ _ _); cbn; by only_graph_calls).
  all: try by only_graph_calls.
  all: destruct (registry !! phone) as [entry|] eqn:Hreg; cbn [PyStr.truthy negb];
    [|destruct (Messaging.graph_api net _ _ _); cbn; by only_graph_calls].
  all: destruct (WhatsApp.entry_apartment_id entry) as [|c apt] eqn:Hapt;
    cbn [PyStr.truthy negb];
    [destruct (Messaging.graph_api net _ _ _); cbn; by only_graph_calls|].
  all: unfold id; cbn [default from_option].
  all: destruct (Messaging.concierge_api net _ _) as [e|[[|] [answer|]]];
    cbn [Messaging.resp_ok Messaging.resp_json].
  all: try (destruct (Json.subscript answer "response") as [reply|]).
  all: try (destruct (Messaging.graph_api net _ _ _)); cbn.
  all: split; [by eexists|]; eexists; split; [solve_log|]; split; [cbn; lia|].
  all: split;
    [ intros u b Hin; apply list_elem_of_In in Hin; cbn in Hin;
      repeat (destruct Hin as [Hin|Hin]); try done; simplify_eq;
      (split; [done|]; exists phone, entry, body; by rewrite Hapt)
    | intros u h d Hin; apply list_elem_of_In in Hin; cbn in Hin;
      intuition (simplify_eq; done) ].
Qed.

End PipelineFacts.

Lemma distinct_names_one_content (d : Directory) (f x y : string) :
  NoDup (d.*1) → (f, x) ∈ d → (f, y) ∈ d → x = y.
Proof.
  induction d as [|[g z] d IH]; simpl; intros Hnd Hx Hy.
  { by apply not_elem_of_nil in Hx. }
  apply NoDup_cons in Hnd as [Hnotin Hnd].
  apply elem_of_cons in Hx as [Hx|Hx]; apply elem_of_cons in Hy as [Hy|Hy];
    simplify_eq; try done.
  - destruct Hnotin. apply list_elem_of_fmap. by exists (g, y).
  - destruct Hnotin. apply list_elem_of_fmap. by exists (g, x).
  - by apply IH.
Qed.

(** X15: an upload whose sanitized name is already a file of the
    directory replaces that file: afterwards the directory holds that
    name once, with the uploaded bytes, and as many files as before. *)
Theorem upload_replaces_existing_document (ext : Externals) (apartment_id : string)
    (file : FileStorage) (w w' : World) (body : Body) (listing : Directory) :
  apartments_data w !! apartment_id = Some listing →
  NoDup (listing.*1) →
  secure_filename ext (file_filename file) ∈ listing.*1 →
  upload_document ext apartment_id (Some file) w = (Ok (body, 200), w') →
  ∃ listing',
    apartments_data w' !! apartment_id = Some listing'
    ∧ NoDup (listing'.*1)
    ∧ length listing' = length listing
    ∧ ∀ x, (secure_filename ext (file_filename file), x) ∈ listing'
           ↔ x = file_data file.
Proof.
  intros Hdir Hnd Hin Hrun.
  destruct (allowed_file (file_filename file)) eqn:Hallowed; cycle 1.
  { unfold upload_document in Hrun. rewrite Hallowed in Hrun.
    case_bool_decide; unfold_monad; discriminate Hrun. }
  destruct (decide (secure_filename ext (file_filename file) = "")) as [He|Hne].
  { unfold upload_document in Hrun. rewrite Hallowed in Hrun.
    case_bool_decide; unfold_monad; [discriminate Hrun|].
    cbn in Hrun. rewrite bool_decide_eq_true_2 in Hrun by done. discriminate Hrun. }
  rewrite upload_document_run in Hrun by done. injection Hrun as _ <-.
  set (name := secure_filename ext (file_filename file)) in *.
  eexists. cbn. rewrite lookup_insert_eq, Hdir. cbn [default from_option].
  unfold id. split; [done|].
  assert (Hnd' : NoDup (write_file name (file_data file) listing).*1)
    by by apply write_file_NoDup.
  split_and!; [done| |].
  - clear Hdir Hnd Hnd'. induction listing as [|[f y] l IH]; simpl.
    { by apply not_elem_of_nil in Hin. }
    case_decide; [done|]. simpl. f_equal. apply IH.
    simpl in Hin. apply elem_of_cons in Hin as [?|?]; [congruence|done].
  - intros x. split.
    + intros Hx.
      eapply distinct_names_one_content; [exact Hnd'|exact Hx|apply write_file_stores].
    + intros ->. apply write_file_stores.
Qed.

Lemma upload_replaces_existing_document_witness :
  ∃ listing',
    apartments_data
      (upload_document (sample_externals None) "apt-1"
         (Some {| file_filename := "wifi.pdf"; file_data := "clave: 9999" |})
         sample_world).2 !! "apt-1" = Some listing'
    ∧ length listing' = 2
    ∧ ∀ x, ("wifi.pdf", x) ∈ listing' ↔ x = "clave: 9999".
Proof.
  set (file := {| file_filename := "wifi.pdf"; file_data := "clave: 9999" |}).
  set (run := upload_document (sample_externals None) "apt-1" (Some file) sample_world).
  destruct (upload_replaces_existing_document (sample_externals None) "apt-1" file
              sample_world run.2
              (JUpload "Documento subido exitosamente" "apt-1" "wifi.pdf")
              [("wifi.pdf", "clave: 1234"); ("notes.txt", "x")])
    as (listing' & Hdir & _ & Hlen & Hone).
  - vm_compute. reflexivity.
  - cbn. apply NoDup_cons. split.
    + intros Hin. apply list_elem_of_singleton in Hin. discriminate Hin.
    + apply NoDup_singleton.
  - apply list_elem_of_here.
  - apply injective_projections; [vm_compute; reflexivity|reflexivity].
  - exists listing'. split; [exact Hdir|]. split; [exact Hlen|exact Hone].
Defined.

(** ** Instances of the further properties *)

Lemma chat_touches_only_the_guests_files_witness :
  apartments_data
    (chat (sample_externals (Some "La clave es 1234"))
       (sample_request (Some "luis") (Some "apt-1") (Some "wifi?")) sample_world).2
  = apartments_data sample_world
  ∧ chat_history
      (chat (sample_externals (Some "La clave es 1234"))
         (sample_request (Some "luis") (Some "apt-1") (Some "wifi?")) sample_world).2
    !! history_file "ana"
    = chat_history sample_world !! history_file "ana".
Proof.
  destruct (chat_touches_only_the_guests_files
              (sample_externals (Some "La clave es 1234"))
              (sample_request (Some "luis") (Some "apt-1") (Some "wifi?"))
              sample_world "luis" eq_refl eq_refl) as [Hdirs Hfiles].
  split; [exact Hdirs|]. apply Hfiles; discriminate.
Defined.

Lemma chat_responder_call_arguments_witness :
  ∃ system messages,
    new_effects sample_world
      (chat (sample_externals None)
         (sample_request (Some "ana") None (Some "wifi?")) sample_world).2
      [EvResponder system messages None]
    ∧ last messages = Some ("user", "wifi?").
Proof.
  set (run := chat (sample_externals None)
                (sample_request (Some "ana") None (Some "wifi?")) sample_world).
  assert (Hnew : ∃ system messages,
            new_effects sample_world run.2 [EvResponder system messages None]).
  { eexists _, _. unfold new_effects. vm_compute. reflexivity. }
  destruct Hnew as (system & messages & Hnew).
  exists system, messages. split; [exact Hnew|].
  destruct (chat_responder_call_arguments (sample_externals None)
              (sample_request (Some "ana") None (Some "wifi?")) sample_world
              run.2 run.1 _ system messages None
              (surjective_pairing run) Hnew (list_elem_of_here _ _))
    as (? & ? & ? & ? & ? & _ & Hm & _ & _ & _ & _ & _ & Hlast).
  injection Hm as <-. exact Hlast.
Defined.

Lemma chat_prompt_carries_accepted_documents_witness :
  ∃ system messages,
    new_effects sample_world
      (chat (sample_externals None)
         (sample_request (Some "ana") None (Some "wifi?")) sample_world).2
      [EvResponder system messages None]
    ∧ occurs_in (section_marker "wifi.pdf" +:+ "clave: 1234") system.
Proof.
  set (run := chat (sample_externals None)
                (sample_request (Some "ana") None (Some "wifi?")) sample_world).
  assert (Hnew : ∃ system messages,
            new_effects sample_world run.2 [EvResponder system messages None]).
  { eexists _, _. unfold new_effects. vm_compute. reflexivity. }
  destruct Hnew as (system & messages & Hnew).
  exists system, messages. split; [exact Hnew|].
  destruct (chat_prompt_carries_accepted_documents (sample_externals None)
              (sample_request (Some "ana") None (Some "wifi?")) sample_world
              run.2 run.1 _ system messages None
              (surjective_pairing run) Hnew (list_elem_of_here _ _))
    as (g & a & listing & _ & _ & Hdir & Hid & Hdocs).
  assert (a = "apt-1" ∧ listing = [("wifi.pdf", "clave: 1234"); ("notes.txt", "x")])
    as [-> ->].
  { unfold sample_world in Hdir. cbn [apartments_data] in Hdir.
    apply lookup_singleton_Some in Hdir as [<- <-]. done. }
  exact (Hdocs ("wifi.pdf", "clave: 1234") (list_elem_of_here _ _) eq_refl).
Defined.

Lemma chat_calls_responder_at_most_once_witness :
  length (filter (λ e, is_responder_call e = true)
            (effects (chat (sample_externals (Some "La clave es 1234"))
                        (sample_request (Some "ana") None (Some "wifi?"))
                        sample_world).2)) ≤ 1
  ∧ EvSaveChatHistory "ana"
    ∈ effects (chat (sample_externals (Some "La clave es 1234"))
                 (sample_request (Some "ana") None (Some "wifi?")) sample_world).2.
Proof.
  set (run := chat (sample_externals (Some "La clave es 1234"))
                (sample_request (Some "ana") None (Some "wifi?")) sample_world).
  destruct (chat_calls_responder_at_most_once
              (sample_externals (Some "La clave es 1234"))
              (sample_request (Some "ana") None (Some "wifi?")) sample_world
              run.2 run.1 (effects run.2) (surjective_pairing run) eq_refl)
    as [Hlen Hiff].
  split; [exact Hlen|]. apply Hiff. split; [reflexivity|].
  assert (Hlog : ∃ system messages,
            effects run.2 = [EvResponder system messages (Some "La clave es 1234");
                             EvSaveChatHistory "ana"]).
  { eexists _, _. vm_compute. reflexivity. }
  destruct Hlog as (system & messages & Hlog).
  exists system, messages, "La clave es 1234". rewrite Hlog. apply list_elem_of_here.
Defined.


Lemma chat_info_suffix_collision_witness :
  (chat (sample_externals (Some "Hola"))
     (sample_request (Some "bob_info") (Some "apt-1") (Some "hola"))
     (chat (sample_externals (Some "Hola"))
        (sample_request (Some "bob") (Some "apt-1") (Some "hola")) sample_world).2).1
  = Raise AttributeError.
Proof.
  apply (chat_info_suffix_collision (sample_externals (Some "Hola"))
           (sample_request (Some "bob") (Some "apt-1") (Some "hola"))
           (sample_request (Some "bob_info") (Some "apt-1") (Some "hola"))
           sample_world "bob" "hola" "apt-1" "hola" "apt-1"
           [("wifi.pdf", "clave: 1234"); ("notes.txt", "x")]); try done.
Defined.

Lemma chat_after_reset_starts_fresh_witness :
  ∃ t1 t2,
    (get_chat_history "ana"
       (chat (sample_externals (Some "Hola"))
          (sample_request (Some "ana") None (Some "hola"))
          (reset_chat "ana" sample_world).2).2).1
    = Ok (HistoryDoc [ {| msg_role := "user"; msg_content := "hola";
                          msg_timestamp := t1 |};
                       {| msg_role := "assistant"; msg_content := "Hola";
                          msg_timestamp := t2 |} ]).
Proof.
  eapply (chat_after_reset_starts_fresh (sample_externals (Some "Hola"))
            (sample_request (Some "ana") None (Some "hola")) sample_world _
            "ana" "hola" "Hola" "apt-1" "ana"); done.
Defined.

Lemma chat_second_turn_sees_first_witness :
  ∃ system messages,
    new_effects
      (chat (sample_externals (Some "Hola"))
         (sample_request (Some "luis") (Some "apt-1") (Some "uno")) sample_world).2
      (chat (sample_externals (Some "Hola"))
         (sample_request (Some "luis") None (Some "dos"))
         (chat (sample_externals (Some "Hola"))
            (sample_request (Some "luis") (Some "apt-1") (Some "uno"))
            sample_world).2).2
      [EvResponder system messages (Some "Hola"); EvSaveChatHistory "luis"]
    ∧ messages = [("user", "uno"); ("assistant", "Hola"); ("user", "dos")].
Proof.
  set (ext := sample_externals (Some "Hola")).
  set (run1 := chat ext (sample_request (Some "luis") (Some "apt-1") (Some "uno"))
                 sample_world).
  set (run2 := chat ext (sample_request (Some "luis") None (Some "dos")) run1.2).
  assert (Hnew : ∃ system messages,
            new_effects run1.2 run2.2
              [EvResponder system messages (Some "Hola"); EvSaveChatHistory "luis"]).
  { eexists _, _. unfold new_effects. vm_compute. reflexivity. }
  destruct Hnew as (system & messages & Hnew).
  exists system, messages. split; [exact Hnew|].
  apply (chat_second_turn_sees_first ext
           (sample_request (Some "luis") (Some "apt-1") (Some "uno"))
           (sample_request (Some "luis") None (Some "dos"))
           sample_world run1.2 run2.2 "luis" "uno" "dos" [] "Hola" "apt-1" "luis"
           run2.1 [EvResponder system messages (Some "Hola"); EvSaveChatHistory "luis"]
           system messages (Some "Hola")).
  all: first [ exact Hnew
             | apply list_elem_of_here
             | reflexivity
             | discriminate
             | apply surjective_pairing
             | apply injective_projections; [vm_compute; reflexivity|reflexivity] ].
Defined.

Lemma upload_stores_file_witness :
  ∃ listing',
    apartments_data
      (upload_document (sample_externals None) "apt-1"
         (Some {| file_filename := "normas.docx"; file_data := "PK" |})
         sample_world).2 !! "apt-1" = Some listing'
    ∧ ("normas.docx", "PK") ∈ listing'.
Proof.
  set (file := {| file_filename := "normas.docx"; file_data := "PK" |}).
  set (run := upload_document (sample_externals None) "apt-1" (Some file) sample_world).
  destruct (upload_stores_file (sample_externals None) "apt-1" file sample_world
              run.2 (JUpload "Documento subido exitosamente" "apt-1" "normas.docx"))
    as (_ & _ & (listing' & Hdir & Hin & _) & _).
  { apply injective_projections; [vm_compute; reflexivity|reflexivity]. }
  exists listing'. split; [exact Hdir|exact Hin].
Defined.


Lemma upload_then_delete_witness :
  (delete_document (sample_externals None) "apt-1" "normas.docx"
     (upload_document (sample_externals None) "apt-1"
        (Some {| file_filename := "normas.docx"; file_data := "PK" |})
        sample_world).2).1
  = Ok (JDeleted "Documento eliminado exitosamente" "apt-1" "normas.docx", 200).
Proof.
  set (file := {| file_filename := "normas.docx"; file_data := "PK" |}).
  set (run := upload_document (sample_externals None) "apt-1" (Some file) sample_world).
  destruct (upload_then_delete (sample_externals None) "apt-1" file sample_world
              run.2 (JUpload "Documento subido exitosamente" "apt-1" "normas.docx"))
    as [Hdel _].
  { apply injective_projections; [vm_compute; reflexivity|reflexivity]. }
  exact Hdel.
Defined.

Lemma loader_result_spec_witness :
  ∃ info,
    load_apartment_info (sample_externals None) "apt-1" sample_world
      = (Ok (Some info), sample_world)
    ∧ apt_documents info = [("wifi.pdf", "clave: 1234")].
Proof.
  destruct (loader_result_spec (sample_externals None) "apt-1"
              [("wifi.pdf", "clave: 1234"); ("notes.txt", "x")] sample_world)
    as (info & Hload & _ & Hdocs & _).
  { vm_compute. reflexivity. }
  exists info. split; [exact Hload|]. rewrite Hdocs. vm_compute. reflexivity.
Defined.

Lemma loader_sections_any_order_witness :
  occurs_in (section_marker "wifi.pdf" +:+ "clave: 1234")
    (section_marker "reglas.doc" +:+ "no fumar"
     +:+ section_marker "wifi.pdf" +:+ "clave: 1234").
Proof.
  set (listing := [("wifi.pdf", "clave: 1234"); ("reglas.doc", "no fumar")]).
  set (listing' := [("reglas.doc", "no fumar"); ("wifi.pdf", "clave: 1234")]).
  set (w := with_apartments_data (insert "apt-3" listing) sample_world).
  set (w' := with_apartments_data (insert "apt-3" listing') sample_world).
  destruct (loader_sections_any_order (sample_externals None) "apt-3"
              listing listing' w w' ("wifi.pdf", "clave: 1234")
              {| apt_apartment_id := "apt-3";
                 apt_documents := [("reglas.doc", "no fumar");
                                   ("wifi.pdf", "clave: 1234")];
                 apt_full_text := section_marker "reglas.doc" +:+ "no fumar"
                                  +:+ section_marker "wifi.pdf" +:+ "clave: 1234" |})
    as [Hocc _].
  - vm_compute. reflexivity.
  - vm_compute. reflexivity.
  - apply perm_swap.
  - apply list_elem_of_here.
  - reflexivity.
  - vm_compute. reflexivity.
  - exact Hocc.
Defined.

Lemma loaded_documents_are_listed_witness :
  ∃ documents,
    (list_documents "apt-1" sample_world).1 = Ok (JDocuments "apt-1" documents, 200)
    ∧ "wifi.pdf" ∈ documents.
Proof.
  apply (loaded_documents_are_listed (sample_externals None) "apt-1" sample_world
           {| apt_apartment_id := "apt-1";
              apt_documents := [("wifi.pdf", "clave: 1234")];
              apt_full_text := section_marker "wifi.pdf" +:+ "clave: 1234" |}
           "wifi.pdf" "clave: 1234").
  - vm_compute. reflexivity.
  - apply list_elem_of_here.
Defined.

Lemma process_non_text_message_witness :
  (Messaging.process_whatsapp_message (sample_network (inl "unreachable"))
     (sample_notification (sample_image_message "34612345678"))
     sample_client sample_registry "http://localhost:5000" []).1
  = Messaging.Done Messaging.UnsupportedType.
Proof.
  rewrite (process_non_text_message (sample_network (inl "unreachable"))
             sample_client sample_registry "http://localhost:5000"
             (sample_notification (sample_image_message "34612345678"))
             (sample_image_message "34612345678")
             (Json.Str "34612345678") (Json.Str "wamid.2") (Json.Str "image") []).
  - reflexivity.
  - reflexivity.
  - reflexivity.
  - reflexivity.
  - reflexivity.
  - discriminate.
Defined.

Lemma process_unregistered_sender_witness :
  (Messaging.process_whatsapp_message (sample_network (inl "unreachable"))
     (sample_notification (sample_text_message "34600000000" "hola"))
     sample_client sample_registry "http://localhost:5000" []).1
  = Messaging.Done Messaging.GuestNotRegistered.
Proof.
  rewrite (process_unregistered_sender (sample_network (inl "unreachable"))
             sample_client sample_registry "http://localhost:5000"
             (sample_notification (sample_text_message "34600000000" "hola"))
             (sample_text_message "34600000000" "hola")
             (Json.Str "wamid.1") (Json.Obj [("body", Json.Str "hola")])
             (Json.Str "hola") "34600000000" []).
  - reflexivity.
  - reflexivity.
  - reflexivity.
  - reflexivity.
  - reflexivity.
  - reflexivity.
  - reflexivity.
  - intros entry Hreg. unfold sample_registry in Hreg.
    apply lookup_singleton_Some in Hreg as [Hne _]. discriminate Hne.
Defined.

Lemma process_registered_sender_witness :
  Messaging.process_whatsapp_message
    (sample_network
       (inr {| Messaging.resp_ok := true;
               Messaging.resp_json :=
                 Some (Json.Obj [("response", Json.Str "La clave es 1234")]) |}))
    (sample_notification (sample_text_message "34612345678" "wifi?"))
    sample_client sample_registry "http://localhost:5000" []
  = (Messaging.Done
       (Messaging.Success (Json.Str "34612345678") (Json.Str "apt-1")
          (Json.Str "wifi?") (Json.Str "La clave es 1234")),
     [graph_call sample_client (read_payload (Json.Str "wamid.1"));
      Messaging.ConciergeCall "http://localhost:5000/chat"
        (chat_payload (Json.Str "34612345678") (Json.Str "apt-1") (Json.Str "wifi?"));
      graph_call sample_client
        (text_payload (Json.Str "34612345678") (Json.Str "La clave es 1234"))]).
Proof.
  set (net := sample_network _).
  destruct (process_registered_sender net sample_client sample_registry
              "http://localhost:5000"
              (sample_notification (sample_text_message "34612345678" "wifi?"))
              (sample_text_message "34612345678" "wifi?")
              (Json.Str "wamid.1") (Json.Obj [("body", Json.Str "wifi?")])
              (Json.Str "wifi?") "34612345678"
              {| WhatsApp.entry_apartment_id := "apt-1";
                 WhatsApp.entry_guest_name := Some "Juan";
                 WhatsApp.entry_registered_at := "2024-05-01T09:00:00" |} [])
    as (Hok & _ & _).
  - reflexivity.
  - reflexivity.
  - reflexivity.
  - reflexivity.
  - reflexivity.
  - reflexivity.
  - vm_compute. reflexivity.
  - discriminate.
  - exact (Hok [("response", Json.Str "La clave es 1234")]
             (Json.Str "La clave es 1234") eq_refl eq_refl).
Defined.
